(** * Session rating analyzer: the query / execute / repair / analyze pipeline

    A shallow embedding of

    - [Backend/services/queryGenerator.js]: the [QueryGenerator] class
      ([initialize], [generateQuery], [fixQuery]) and the [ResultAnalyzer]
      class ([initialize], [analyzeResults], [prepareResultSummary],
      [isAggregatedData]);
    - [Backend/services/mongoService.js]: [executeQueryWithRetry], and the
      rest of the [MongoService] class ([connect], [testConnection],
      [executeRawQuery], [getSampleData], [getCollectionStats],
      [disconnect]);
    - the Express handlers of the server and of the app
      ([initializeContexts], [POST /api/query], [GET /api/health]);
    - [public/script.js]: [formatAnalysis] and [escapeHtml].

    JavaScript values are an inductive type, numbers are binary64 floats, the
    document store and the language oracle are state-passing functions over
    an abstract world, exceptions are the left summand of the result, and
    every console line and every outbound call is appended to a trace. *)

From Stdlib Require Import ZArith String Ascii List Bool Floats DecimalString Lia.
Import ListNotations.

#[local] Open Scope string_scope.
#[local] Set Warnings "-inexact-float,-register-all".

(* ================================================================== *)
(** * JavaScript values *)
(* ================================================================== *)

Module JS.

(** The values that flow through the pipeline: what [JSON.parse] produces,
    what the store returns, plus [undefined].  An object is its own
    enumerable properties in enumeration order (keys pairwise distinct). *)
Inductive value : Type :=
| VUndefined
| VNull
| VBool (b : bool)
| VNum (x : float)
| VStr (s : string)
| VArr (items : list value)
| VObj (fields : list (string * value)).

(** A record of a result set: the store returns documents, that is objects. *)
Definition Document : Type := list (string * value).

Definition is_nan (x : float) : bool := negb (PrimFloat.eqb x x).

(** ToBoolean *)
Definition ToBoolean (v : value) : bool :=
  match v with
  | VUndefined | VNull => false
  | VBool b => b
  | VNum x => negb (PrimFloat.eqb x 0 || is_nan x)
  | VStr s => negb (String.eqb s "")
  | VArr _ | VObj _ => true
  end.

Definition Array_isArray (v : value) : bool :=
  match v with VArr _ => true | _ => false end.

Fixpoint lookup (key : string) (fields : list (string * value)) : option value :=
  match fields with
  | [] => None
  | (k, v) :: rest => if String.eqb k key then Some v else lookup key rest
  end.

(** [d.key] on a document. *)
Definition field (d : Document) (key : string) : value :=
  match lookup key d with Some v => v | None => VUndefined end.

(** [v.key] on a value that is neither [undefined] nor [null] (the source
    guards every such access with [&&]); the keys the source reads are not
    members of the String, Number, Boolean or Array prototypes, so only an
    object can answer. *)
Definition member (v : value) (key : string) : value :=
  match v with
  | VObj fields => field fields key
  | _ => VUndefined
  end.

(** [d.hasOwnProperty(key)] *)
Definition hasOwnProperty (d : Document) (key : string) : bool :=
  match lookup key d with Some _ => true | None => false end.

(** [a && b] *)
Definition js_and (a b : value) : value := if ToBoolean a then b else a.

(** [array.length] as a number. *)
Definition float_of_nat (n : nat) : float :=
  PrimFloat.of_uint63 (Uint63.of_Z (Z.of_nat n)).

(** Decimal numeral of an integer: what a template literal prints for an
    array length or an integer argument (integers below 10^21). *)
Definition string_of_Z (z : Z) : string := NilZero.string_of_int (Z.to_int z).
Definition string_of_nat (n : nat) : string := string_of_Z (Z.of_nat n).

Definition dq : string := String (ascii_of_nat 34) EmptyString.
Definition nl : string := String (ascii_of_nat 10) EmptyString.

(** [array.join(sep)] over already converted elements. *)
Fixpoint join (sep : string) (parts : list string) : string :=
  match parts with
  | [] => ""
  | [p] => p
  | p :: rest => p ++ sep ++ join sep rest
  end.

(** The built-ins of the host that turn text into values and back.  Their
    exact output (number formatting, the wording of a SyntaxError or
    TypeError) belongs to the engine, so the services are defined over any
    runtime; [reference_runtime] below is one instance. *)
Class Runtime : Type := {
  (** [String.prototype.trim] *)
  String_trim : string -> string;
  (** [JSON.parse(text)]: the value, or the message of the SyntaxError *)
  JSON_parse : string -> string + value;
  (** [JSON.stringify(v, null, space)]; [space = 0] is [JSON.stringify(v)];
      [None] is [undefined] *)
  JSON_stringify : value -> nat -> option string;
  (** [Number.prototype.toString()] *)
  Number_toString : float -> string;
  (** [Number.prototype.toFixed(digits)] *)
  Number_toFixed : float -> nat -> string;
  (** ToNumber applied to a string *)
  StringToNumber : string -> float;
  (** message of the TypeError raised by reading property [prop] of
      [undefined] or [null] (named by [base]) *)
  TypeError_cannot_read : string -> string -> string
}.

Section Conversions.
Context {rt : Runtime}.

(** What a template literal prints for [JSON.stringify(v, null, space)]. *)
Definition stringify (v : value) (space : nat) : string :=
  match JSON_stringify v space with Some s => s | None => "undefined" end.

(** ToString; an array prints as [join(",")], where [undefined] and [null]
    elements print as the empty string. *)
Fixpoint ToString (v : value) : string :=
  match v with
  | VUndefined => "undefined"
  | VNull => "null"
  | VBool true => "true"
  | VBool false => "false"
  | VNum x => Number_toString x
  | VStr s => s
  | VArr items =>
      join "," (map (fun e => match e with
                              | VUndefined | VNull => ""
                              | _ => ToString e
                              end) items)
  | VObj _ => "[object Object]"
  end.

(** [array.join(sep)] *)
Definition Array_join (items : list value) (sep : string) : string :=
  join sep (map (fun e => match e with
                          | VUndefined | VNull => ""
                          | _ => ToString e
                          end) items).

(** ToPrimitive: plain objects and arrays have no primitive [valueOf]. *)
Definition ToPrimitive (v : value) : value :=
  match v with
  | VArr _ | VObj _ => VStr (ToString v)
  | _ => v
  end.

(** ToNumber of a primitive. *)
Definition ToNumber (v : value) : float :=
  match ToPrimitive v with
  | VUndefined => nan
  | VNull => 0
  | VBool true => 1
  | VBool false => 0
  | VNum x => x
  | VStr s => StringToNumber s
  | _ => nan
  end.

(** [a + b] *)
Definition js_add (a b : value) : value :=
  match ToPrimitive a, ToPrimitive b with
  | VStr s, pb => VStr (s ++ ToString pb)
  | pa, VStr s => VStr (ToString pa ++ s)
  | pa, pb => VNum (ToNumber pa + ToNumber pb)
  end.

(** [a / b] *)
Definition js_div (a b : value) : float := (ToNumber a / ToNumber b)%float.

End Conversions.

(** SameValueZero, the equality of [Set]; two objects are the same only if
    they are one object, and the objects met in a result set are all
    distinct. *)
Definition SameValueZero (a b : value) : bool :=
  match a, b with
  | VUndefined, VUndefined => true
  | VNull, VNull => true
  | VBool x, VBool y => Bool.eqb x y
  | VNum x, VNum y => PrimFloat.eqb x y || (is_nan x && is_nan y)
  | VStr x, VStr y => String.eqb x y
  | _, _ => false
  end.

(** [set.add(v)] and [[...new Set(items)]]: insertion order, first
    occurrence kept. *)
Definition Set_add (seen : list value) (v : value) : list value :=
  if existsb (SameValueZero v) seen then seen else seen ++ [v].

Definition Set_of (items : list value) : list value :=
  fold_left Set_add items [].

(** [array.slice(0, n)] *)
Definition slice0 {A : Type} (n : nat) (items : list A) : list A := firstn n items.

End JS.
Export JS.

(* ================================================================== *)
(** * Collaborators, state and effects *)
(* ================================================================== *)

(** One entry of [messages]; [content] is [None] when the source passes
    [this.context] before it was set ([null]). *)
Record ChatMessage : Type := { role : string; content : option string }.

(** The argument of [openai.chat.completions.create]. *)
Record ChatRequest : Type := {
  model : string;
  messages : list ChatMessage;
  temperature : float;
  max_tokens : Z
}.

(** [response.choices], each choice by its [message.content]
    ([None] is [null]). *)
Definition ChatResponse : Type := list (option string).

(** The two external collaborators.  Each call either resolves or rejects
    with an error, of which the source reads only [message]; the world
    carries whatever decides the answer. *)
Class Collaborators : Type := {
  World : Type;
  (** [collection.aggregate(pipeline).toArray()] *)
  collection_aggregate : value -> World -> (string + list Document) * World;
  (** [openai.chat.completions.create(request)] *)
  chat_completions_create : ChatRequest -> World -> (string + ChatResponse) * World
}.

(** What the services do that can be observed from outside. *)
Inductive Event : Type :=
| Console_log (line : string)
| Console_error (line : string)
| Aggregate (pipeline : value) (outcome : string + list Document)
| Completion (request : ChatRequest) (outcome : string + ChatResponse).

(** The fields [isInitialized] and [context] of a [QueryGenerator] or a
    [ResultAnalyzer]. *)
Record Service : Type := { isInitialized : bool; context : option string }.

(** The constructor: [isInitialized = false], [context = null]. *)
Definition new_Service : Service := {| isInitialized := false; context := None |}.

(** A double quote is written as a backquote in the two context texts
    below (a template literal holds no backquote). *)
Fixpoint quoted (s : string) : string :=
  match s with
  | EmptyString => EmptyString
  | String c rest =>
      String (if Ascii.eqb c "`"%char then ascii_of_nat 34 else c) (quoted rest)
  end.

Definition QueryGenerator_context : string := quoted
"You are a MongoDB query generator for a session rating database.

DATABASE SCHEMA:
Collection: sessions
Document Structure:
{
  `_id`: ObjectId,
  `topicCode`: `string (e.g., 'Test Review Session')`,
  `type`: `string (e.g., 'SRE Assignment Review')`,
  `domain`: `string (e.g., 'SRE', 'Cloud', 'Backend', 'Frontend', 'Data Science')`,
  `class`: `string (e.g., 'Cloud Computing & AWS Services')`,
  `cohorts`: [`array of strings`],
  `instructor`: `string (e.g., 'Rishi Bollu')`,
  `sessionDate`: `Date`,
  `ratings`: {
    `overallAverage`: `number (1-5 scale)`,
    `totalResponses`: `number`,
    `studentsAttended`: `number`, 
    `cohortStrength`: `number`,
    `percentRated`: `number (percentage)`,
    `yesResponses`: `number`,
    `noResponses`: `number`,
    `yesPercent`: `number`,
    `noPercent`: `number`
  },
  `metadata`: {
    `sourceSheet`: `string`,
    `sheetRowNumber`: `number`,
    `lastSyncedAt`: `Date`
  },
  `createdAt`: `Date`,
  `updatedAt`: `Date`
}

IMPORTANT RULES:
1. Always return ONLY valid MongoDB aggregation pipeline as JSON array
2. Use aggregation pipeline format: [{ $match: {...} }, { $group: {...} }, ...]
3. For date queries, use proper MongoDB date operators like $gte, $lte
4. For quarter calculations: Q1 (Jan-Mar), Q2 (Apr-Jun), Q3 (Jul-Sep), Q4 (Oct-Dec)
5. Use $dateToString, $year, $month for date formatting
6. For rating improvements, use $group and $project to calculate differences
7. Handle case-insensitive text matching with regex when needed
8. Return empty array [] if query cannot be converted to MongoDB

EXAMPLES:
Query: `Average rating for Rishi Bollu`
Response: [{`$match`:{`instructor`:`Rishi Bollu`}},{`$group`:{`_id`:null,`avgRating`:{`$avg`:`$ratings.overallAverage`},`totalSessions`:{`$sum`:1}}}]

Query: `Sessions in 2024`  
Response: [{`$match`:{`sessionDate`:{`$gte`:`2024-01-01T00:00:00.000Z`,`$lte`:`2024-12-31T23:59:59.999Z`}}}]

Convert the user's English query into a MongoDB aggregation pipeline. Return only the JSON array.".

Definition ResultAnalyzer_context : string := quoted
"You are a data analyst specializing in educational session ratings and performance metrics.

Your job is to analyze query results from a session rating database and provide clear, actionable insights.

CONTEXT ABOUT THE DATA:
- Sessions are educational classes with instructors
- Ratings are on a 1-5 scale (5 being excellent)
- Domains include: SRE, Cloud, Backend, Frontend, Data Science, etc.
- Each session has attendance and feedback metrics
- Data spans multiple quarters and years

ANALYSIS GUIDELINES:
1. When showing aggregated results (like `average rating for each instructor`), provide ALL results in a clear, organized format
2. For queries asking for lists, rankings, or comparisons, show the COMPLETE data
3. Include specific numbers and percentages when relevant
4. Compare performance where appropriate (vs average, trends over time)
5. Point out any concerning patterns (low ratings, poor attendance)
6. Keep responses focused and actionable
7. If no data found, explain what this means
8. Format numbers clearly (e.g., `4.2 out of 5`, `85% attendance`)
9. For large result sets, organize data in tables or clear lists
10. Always show ALL instructors/domains/entities when user asks for `each` or `all`

RESPONSE FORMAT:
- For aggregated queries (like `average rating for each instructor`), provide a COMPLETE list or table of ALL results
- Start with a direct answer to the user's question
- Show ALL data when user asks for `each`, `all`, or wants a complete list
- Follow with supporting details and context
- End with actionable insights or recommendations if applicable
- Keep it conversational but professional
- Format large lists in readable tables or organized sections

Do not:
- Include raw MongoDB queries or technical details
- Overwhelm with too many statistics
- Make assumptions beyond what the data shows".

Section Services.
Context {rt : Runtime} {env : Collaborators}.

(** The module-level singletons [queryGenerator] and [resultAnalyzer], the
    world behind the collaborators, and the trace so far. *)
Record State : Type := {
  world : World;
  queryGenerator : Service;
  resultAnalyzer : Service;
  trace : list Event
}.

(** A computation: runs from a state, throws an error (its message, on
    the left) or returns, and leaves a state. *)
Definition M (A : Type) : Type := State -> (string + A) * State.

Definition ret {A : Type} (a : A) : M A := fun s => (inr a, s).

Definition throw {A : Type} (message : string) : M A := fun s => (inl message, s).

Definition bind {A B : Type} (m : M A) (k : A -> M B) : M B :=
  fun s => match m s with
           | (inr a, s') => k a s'
           | (inl e, s') => (inl e, s')
           end.

(** [try { m } catch (error) { handler(error.message) }] *)
Definition try_catch {A : Type} (m : M A) (handler : string -> M A) : M A :=
  fun s => match m s with
           | (inl e, s') => handler e s'
           | (inr a, s') => (inr a, s')
           end.

#[local] Notation "x <- m ;; k" := (bind m (fun x => k))
  (at level 61, m at next level, right associativity).
#[local] Notation "m ;; k" := (bind m (fun _ => k))
  (at level 61, right associativity).

Definition emit (e : Event) : M unit :=
  fun s => (inr tt, {| world := world s;
                       queryGenerator := queryGenerator s;
                       resultAnalyzer := resultAnalyzer s;
                       trace := trace s ++ [e] |}).

Definition console_log (line : string) : M unit := emit (Console_log line).
Definition console_error (line : string) : M unit := emit (Console_error line).

(** [await this.collection.aggregate(pipeline).toArray()] *)
Definition aggregate_toArray (pipeline : value) : M (list Document) :=
  fun s => let (outcome, w) := collection_aggregate pipeline (world s) in
           (outcome, {| world := w;
                        queryGenerator := queryGenerator s;
                        resultAnalyzer := resultAnalyzer s;
                        trace := trace s ++ [Aggregate pipeline outcome] |}).

(** [await this.openai.chat.completions.create(request)] *)
Definition create (request : ChatRequest) : M ChatResponse :=
  fun s => let (outcome, w) := chat_completions_create request (world s) in
           (outcome, {| world := w;
                        queryGenerator := queryGenerator s;
                        resultAnalyzer := resultAnalyzer s;
                        trace := trace s ++ [Completion request outcome] |}).

(** [response.choices[0].message.content.trim()] *)
Definition content_trim (response : ChatResponse) : M string :=
  match response with
  | [] => throw (TypeError_cannot_read "undefined" "message")
  | None :: _ => throw (TypeError_cannot_read "null" "trim")
  | Some text :: _ => ret (String_trim text)
  end.

(* ------------------------------------------------------------------ *)
(** ** QueryGenerator *)

Definition get_queryGenerator : M Service := fun s => (inr (queryGenerator s), s).

Definition set_queryGenerator (this : Service) : M unit :=
  fun s => (inr tt, {| world := world s;
                       queryGenerator := this;
                       resultAnalyzer := resultAnalyzer s;
                       trace := trace s |}).

Definition QueryGenerator_initialize : M unit :=
  this <- get_queryGenerator ;;
  if isInitialized this then ret tt
  else
    set_queryGenerator {| isInitialized := true;
                          context := Some QueryGenerator_context |} ;;
    console_log "✅ Query Generator context initialized".

(** The argument of [create] in [generateQuery]. *)
Definition generateRequest (this : Service) (userQuery : string) : ChatRequest :=
  {| model := "gpt-4";
     messages := [ {| role := "system"; content := context this |};
                   {| role := "user"; content := Some userQuery |} ];
     temperature := 0.1;
     max_tokens := 1000 |}.

Definition generateQuery (userQuery : string) : M value :=
  this <- get_queryGenerator ;;
  if negb (isInitialized this) then throw "Query Generator not initialized"
  else
    try_catch
      (response <- create (generateRequest this userQuery) ;;
       generatedQuery <- content_trim response ;;
       mongoQuery <- try_catch
                       (match JSON_parse generatedQuery with
                        | inl syntaxError => throw syntaxError
                        | inr mongoQuery =>
                            if negb (Array_isArray mongoQuery)
                            then throw "Query must be an array"
                            else ret mongoQuery
                        end)
                       (fun parseError =>
                          throw ("Invalid MongoDB query generated: " ++ parseError)) ;;
       console_log ("Generated MongoDB Query: " ++ stringify mongoQuery 2) ;;
       ret mongoQuery)
      (fun error =>
         console_error ("Error generating query: " ++ error) ;;
         throw ("Failed to generate MongoDB query: " ++ error)).

Definition fixPrompt (originalQuery errorMessage : string) (failedQuery : value) : string :=
  "The previous MongoDB query failed with error: " ++ dq ++ errorMessage ++ dq ++ nl
  ++ nl
  ++ "Original user request: " ++ dq ++ originalQuery ++ dq ++ nl
  ++ "Failed query: " ++ stringify failedQuery 0 ++ nl
  ++ nl
  ++ "Please provide a corrected MongoDB aggregation pipeline that fixes this error." ++ nl
  ++ "Return only the corrected JSON array.".

(** The argument of [create] in [fixQuery]. *)
Definition fixRequest (this : Service) (originalQuery errorMessage : string)
    (failedQuery : value) : ChatRequest :=
  {| model := "gpt-4";
     messages := [ {| role := "system"; content := context this |};
                   {| role := "user";
                      content := Some (fixPrompt originalQuery errorMessage failedQuery) |} ];
     temperature := 0.1;
     max_tokens := 1000 |}.

Definition fixQuery (originalQuery errorMessage : string) (failedQuery : value) : M value :=
  this <- get_queryGenerator ;;
  try_catch
    (response <- create (fixRequest this originalQuery errorMessage failedQuery) ;;
     text <- content_trim response ;;
     fixedQuery <- match JSON_parse text with
                   | inl syntaxError => throw syntaxError
                   | inr fixedQuery => ret fixedQuery
                   end ;;
     console_log ("Fixed MongoDB Query: " ++ stringify fixedQuery 2) ;;
     ret fixedQuery)
    (fun error => throw ("Failed to fix query: " ++ error)).

(* ------------------------------------------------------------------ *)
(** ** ResultAnalyzer *)

Definition get_resultAnalyzer : M Service := fun s => (inr (resultAnalyzer s), s).

Definition set_resultAnalyzer (this : Service) : M unit :=
  fun s => (inr tt, {| world := world s;
                       queryGenerator := queryGenerator s;
                       resultAnalyzer := this;
                       trace := trace s |}).

Definition ResultAnalyzer_initialize : M unit :=
  this <- get_resultAnalyzer ;;
  if isInitialized this then ret tt
  else
    set_resultAnalyzer {| isInitialized := true;
                          context := Some ResultAnalyzer_context |} ;;
    console_log "✅ Result Analyzer context initialized".

(** The result set as the array it is. *)
Definition array_of (results : list Document) : value := VArr (map VObj results).

(** [results] is [None] when the argument is [undefined] or [null]. *)
Definition isAggregatedData (results : option (list Document)) : bool :=
  match results with
  | None => false
  | Some [] => false
  | Some ((firstResult :: _) as results) =>
      let hasAggregationFields :=
        hasOwnProperty firstResult "_id"
        && (hasOwnProperty firstResult "avgRating"
            || hasOwnProperty firstResult "averageRating"
            || hasOwnProperty firstResult "totalSessions"
            || hasOwnProperty firstResult "count"
            || hasOwnProperty firstResult "sum"
            || hasOwnProperty firstResult "avg") in
      hasAggregationFields && (length results <=? 200)%nat
  end.

(** [r.ratings && r.ratings.overallAverage] *)
Definition overallAverage_if_any (r : Document) : value :=
  js_and (field r "ratings") (member (field r "ratings") "overallAverage").

(** Lines 248 to 287 of [prepareResultSummary]: the summary of a large set
    of individual records. *)
Definition detailed_summary (results : list Document) : string :=
  let summary := "Data overview:" ++ nl in
  let summary := summary ++ "- Total records: " ++ string_of_nat (length results) ++ nl in
  let sampleData := slice0 10 results in
  let summary := summary ++ "- Sample data (first 10 records): "
                         ++ stringify (array_of sampleData) 2 ++ nl in
  let ratingsFound := filter (fun r => ToBoolean (overallAverage_if_any r)) results in
  let summary :=
    if (0 <? length ratingsFound)%nat then
      let avgRating :=
        js_div (fold_left (fun sum r => js_add sum (member (field r "ratings") "overallAverage"))
                          ratingsFound (VNum 0))
               (VNum (float_of_nat (length ratingsFound))) in
      summary ++ "- Average rating across results: " ++ Number_toFixed avgRating 2 ++ nl
    else summary in
  let instructors := Set_of (filter ToBoolean (map (fun r => field r "instructor") results)) in
  let summary :=
    if (0 <? length instructors)%nat then
      summary ++ "- Unique instructors: " ++ string_of_nat (length instructors)
              ++ " (" ++ Array_join (slice0 5 instructors) ", "
              ++ (if (5 <? length instructors)%nat then "..." else "") ++ ")" ++ nl
    else summary in
  let domains := Set_of (filter ToBoolean (map (fun r => field r "domain") results)) in
  let summary :=
    if (0 <? length domains)%nat then
      summary ++ "- Domains covered: " ++ Array_join domains ", " ++ nl
    else summary in
  summary.

Definition prepareResultSummary (results : option (list Document)) : string :=
  match results with
  | None => "No data found matching the query criteria."
  | Some [] => "No data found matching the query criteria."
  | Some rs =>
      if isAggregatedData results then
        "Complete aggregated results (" ++ string_of_nat (length rs) ++ " records):" ++ nl
        ++ stringify (array_of rs) 2
      else if (length rs <=? 10)%nat then
        "Complete results: " ++ stringify (array_of rs) 2
      else detailed_summary rs
  end.

Definition analysisPrompt (originalQuery : string) (results : list Document)
    (resultSummary : string) : string :=
  "User asked: " ++ dq ++ originalQuery ++ dq ++ nl
  ++ nl
  ++ "Query returned " ++ string_of_nat (length results) ++ " results." ++ nl
  ++ nl
  ++ resultSummary ++ nl
  ++ nl
  ++ "Please analyze these results and provide clear insights about what this data tells us in response to the user's question.".

(** The argument of [create] in [analyzeResults]. *)
Definition analysisRequest (this : Service) (analysisPrompt : string) : ChatRequest :=
  {| model := "gpt-4";
     messages := [ {| role := "system"; content := context this |};
                   {| role := "user"; content := Some analysisPrompt |} ];
     temperature := 0.3;
     max_tokens := 800 |}.

Definition analyzeResults (originalQuery : string) (results : list Document) : M string :=
  this <- get_resultAnalyzer ;;
  if negb (isInitialized this) then throw "Result Analyzer not initialized"
  else
    try_catch
      (let resultSummary := prepareResultSummary (Some results) in
       response <- create (analysisRequest this (analysisPrompt originalQuery results resultSummary)) ;;
       analysis <- content_trim response ;;
       console_log ("Generated Analysis: " ++ analysis) ;;
       ret analysis)
      (fun error =>
         console_error ("Error analyzing results: " ++ error) ;;
         throw ("Failed to analyze results: " ++ error)).

(* ------------------------------------------------------------------ *)
(** ** MongoService *)

(** How one turn of the [for] loop ends when it does not throw: the
    function returns, or the loop goes on with the repaired query. *)
Inductive Turn : Type :=
| Return (results : list Document)
| Continue (currentQuery : value).

(** The [for] loop from [attempt] on.  [fuel] bounds the turns left; with
    [fuel > maxRetries - attempt] it is the loop condition that ends the
    loop, never the fuel.  Falling out of the loop makes the function
    return [undefined] ([None]).  [maxRetries] is an integer, as are
    [attempt] and [maxRetries - 1]. *)
Fixpoint for_attempts (fuel : nat) (originalQuery : string) (maxRetries attempt : Z)
    (currentQuery : value) : M (option (list Document)) :=
  match fuel with
  | O => ret None
  | S fuel' =>
      if (attempt <? maxRetries)%Z then
        turn <- try_catch
          (console_log ("🔄 Executing query (attempt " ++ string_of_Z (attempt + 1)
                        ++ "/" ++ string_of_Z maxRetries ++ ")") ;;
           results <- aggregate_toArray currentQuery ;;
           console_log ("✅ Query executed successfully, found "
                        ++ string_of_nat (length results) ++ " results") ;;
           ret (Return results))
          (fun error =>
             console_error ("❌ Query execution failed (attempt "
                            ++ string_of_Z (attempt + 1) ++ "): " ++ error) ;;
             if (attempt =? maxRetries - 1)%Z then
               throw ("Database query failed after " ++ string_of_Z maxRetries
                      ++ " attempts: " ++ error)
             else
               try_catch
                 (console_log "🔄 Attempting to fix query with ChatGPT..." ;;
                  fixed <- fixQuery originalQuery error currentQuery ;;
                  console_log "✅ Query fixed, retrying..." ;;
                  ret (Continue fixed))
                 (fun fixError =>
                    console_error ("❌ Failed to fix query: " ++ fixError) ;;
                    throw ("Query could not be fixed: " ++ fixError))) ;;
        match turn with
        | Return results => ret (Some results)
        | Continue fixed => for_attempts fuel' originalQuery maxRetries (attempt + 1) fixed
        end
      else ret None
  end.

Definition executeQueryWithRetry (mongoQuery : value) (originalQuery : string)
    (maxRetries : Z) : M (option (list Document)) :=
  for_attempts (S (Z.to_nat maxRetries)) originalQuery maxRetries 0 mongoQuery.

End Services.

(* ================================================================== *)
(** * A reference runtime *)
(* ================================================================== *)

(** One concrete [Runtime], following ECMA-262 on strings that are UTF-8
    byte sequences.  The services never look inside it: it is what the
    closed examples run on. *)
Module Reference.

#[local] Open Scope Z_scope.

Definition bytes_of (s : string) : list Z :=
  map (fun c => Z.of_N (N_of_ascii c)) (list_ascii_of_string s).

Definition string_of_bytes (l : list Z) : string :=
  string_of_list_ascii (map (fun b => ascii_of_N (Z.to_N b)) l).

Definition char (b : Z) : string := string_of_bytes [b].

(* ------------------------------------------------------------------ *)
(** ** White space and [trim] *)

(** TAB, LF, VT, FF, CR, SP. *)
Definition ws1 (a : Z) : bool := ((9 <=? a) && (a <=? 13)) || (a =? 32).

(** U+00A0. *)
Definition ws2 (a b : Z) : bool := (a =? 194) && (b =? 160).

(** U+1680, U+2000 to U+200A, U+2028, U+2029, U+202F, U+205F, U+3000,
    U+FEFF. *)
Definition ws3 (a b c : Z) : bool :=
  ((a =? 225) && (b =? 154) && (c =? 128))
  || ((a =? 226) && (b =? 128)
      && (((128 <=? c) && (c <=? 138)) || (c =? 168) || (c =? 169) || (c =? 175)))
  || ((a =? 226) && (b =? 129) && (c =? 159))
  || ((a =? 227) && (b =? 128) && (c =? 128))
  || ((a =? 239) && (b =? 187) && (c =? 191)).

Fixpoint trim_start (l : list Z) : list Z :=
  match l with
  | [] => []
  | a :: r1 =>
      if ws1 a then trim_start r1
      else match r1 with
           | [] => l
           | b :: r2 =>
               if ws2 a b then trim_start r2
               else match r2 with
                    | [] => l
                    | c :: r3 => if ws3 a b c then trim_start r3 else l
                    end
           end
  end.

(** The same on the reversed text. *)
Fixpoint trim_start_rev (l : list Z) : list Z :=
  match l with
  | [] => []
  | a :: r1 =>
      if ws1 a then trim_start_rev r1
      else match r1 with
           | [] => l
           | b :: r2 =>
               if ws2 b a then trim_start_rev r2
               else match r2 with
                    | [] => l
                    | c :: r3 => if ws3 c b a then trim_start_rev r3 else l
                    end
           end
  end.

Definition trim (s : string) : string :=
  string_of_bytes (rev (trim_start_rev (rev (trim_start (bytes_of s))))).

(* ------------------------------------------------------------------ *)
(** ** Numbers and decimal text *)

Definition digits_of (n : Z) : string := string_of_Z n.

Fixpoint zeros (n : nat) : string :=
  match n with O => "" | S n' => "0" ++ zeros n' end.

(** The double nearest to [num / den] (both positive), ties to even. *)
Definition nearest_double (num den : Z) : float :=
  SF2Prim (SFdiv prec emax (S754_finite false (Z.to_pos num) 0)
                           (S754_finite false (Z.to_pos den) 0)).

(** [m * 2^e] as a fraction. *)
Definition fraction_of (m : positive) (e : Z) : Z * Z :=
  if 0 <=? e then (Z.pos m * 2 ^ e, 1) else (Z.pos m, 2 ^ (- e)).

(** [num / den * 10^p] as a fraction. *)
Definition scale10 (f : Z * Z) (p : Z) : Z * Z :=
  let (num, den) := f in
  if 0 <=? p then (num * 10 ^ p, den) else (num, den * 10 ^ (- p)).

(** The [n] with [10^(n-1) <= num/den < 10^n]. *)
Definition decimal_exponent (f : Z * Z) : Z :=
  let (num, den) := f in
  let guess := (Z.log2 num - Z.log2 den) * 1233 / 4096 in
  let below (n : Z) := let (a, b) := scale10 f (- n) in a <? b in
  if below (guess - 1) then guess - 1
  else if below guess then guess
  else if below (guess + 1) then guess + 1
  else if below (guess + 2) then guess + 2
  else guess + 3.

(** Does [s * 10^(n-k)] read back as [x]? *)
Definition reads_back (x : float) (s n k : Z) : bool :=
  let (num, den) := scale10 (s, 1) (n - k) in
  PrimFloat.eqb (nearest_double num den) x.

(** |a/b - s * 10^(n-k)|, over the common denominator, as a numerator and
    a denominator. *)
Definition distance (f : Z * Z) (s n k : Z) : Z * Z :=
  let (a, b) := f in
  let (c, d) := scale10 (s, 1) (n - k) in
  (Z.abs (a * d - c * b), b * d).

Definition closer (p q : Z * Z) : bool :=
  let (a, b) := p in let (c, d) := q in a * d <? c * b.

Definition same_distance (p q : Z * Z) : bool :=
  let (a, b) := p in let (c, d) := q in a * d =? c * b.

(** The shortest digits: [(n, k, s)] with [k] least such that
    [s * 10^(n-k)] reads back as the number, the closest such [s], the even
    one on a tie. *)
Fixpoint shortest (x : float) (f : Z * Z) (n : Z) (k : Z) (fuel : nat) : Z * Z * Z :=
  match fuel with
  | O => (n, k, 0)
  | S fuel' =>
      let (a, b) := scale10 f (k - n) in
      let lo := a / b in
      let hi := lo + 1 in
      let clo := (n, k, lo) in
      let chi := if hi <? 10 ^ k then (n, k, hi) else (n + 1, k, 10 ^ (k - 1)) in
      let ok (c : Z * Z * Z) := let '(n', k', s') := c in reads_back x s' n' k' in
      let dist (c : Z * Z * Z) := let '(n', k', s') := c in distance f s' n' k' in
      match ok clo, ok chi with
      | true, false => clo
      | false, true => chi
      | true, true =>
          if closer (dist clo) (dist chi) then clo
          else if same_distance (dist clo) (dist chi)
               then (if Z.even lo then clo else chi)
               else chi
      | false, false => shortest x f n (k + 1) fuel'
      end
  end.

(** The first [n] characters and the rest. *)
Fixpoint split_at (n : nat) (s : string) : string * string :=
  match n, s with
  | O, _ => ("", s)
  | S n', String c rest => let (a, b) := split_at n' rest in (String c a, b)
  | S _, EmptyString => ("", "")
  end.

(** Number::toString of a positive finite number given as [m * 2^e]. *)
Definition positive_toString (x : float) (m : positive) (e : Z) : string :=
  let f := fraction_of m e in
  let '(n, k, s) := shortest x f (decimal_exponent f) 1 17 in
  let digits := digits_of s in
  if (k <=? n) && (n <=? 21) then digits ++ zeros (Z.to_nat (n - k))
  else if (0 <? n) && (n <=? 21) then
    let (int, frac) := split_at (Z.to_nat n) digits in int ++ "." ++ frac
  else if (-6 <? n) && (n <=? 0) then "0." ++ zeros (Z.to_nat (- n)) ++ digits
  else
    let exponent := (if 0 <=? n - 1 then "+" else "-") ++ digits_of (Z.abs (n - 1)) in
    if k =? 1 then digits ++ "e" ++ exponent
    else let (d, rest) := split_at 1 digits in d ++ "." ++ rest ++ "e" ++ exponent.

(** Number::toString, radix 10. *)
Definition toString (x : float) : string :=
  match Prim2SF x with
  | S754_nan => "NaN"
  | S754_zero _ => "0"
  | S754_infinity false => "Infinity"
  | S754_infinity true => "-Infinity"
  | S754_finite sign m e =>
      (if sign then "-" else "") ++ positive_toString (abs x) m e
  end.

(** Number.prototype.toFixed(fractionDigits) *)
Definition toFixed (x : float) (fractionDigits : nat) : string :=
  match Prim2SF x with
  | S754_nan => "NaN"
  | S754_infinity false => "Infinity"
  | S754_infinity true => "-Infinity"
  | S754_zero _ => if (fractionDigits =? 0)%nat then "0" else "0." ++ zeros fractionDigits
  | S754_finite sign m e =>
      let (a, b) := fraction_of m e in
      if 10 ^ 21 * b <=? a then toString x
      else
        let f := Z.of_nat fractionDigits in
        (* the integer nearest to x * 10^f, the larger one on a tie *)
        let n := (2 * a * 10 ^ f + b) / (2 * b) in
        let m := digits_of n in
        let m := if (fractionDigits =? 0)%nat then m
                 else
                   let k := String.length m in
                   let m := if (k <=? fractionDigits)%nat
                            then zeros (fractionDigits + 1 - k) ++ m else m in
                   let (int, frac) := split_at (String.length m - fractionDigits) m in
                   int ++ "." ++ frac in
        (if sign then "-" else "") ++ m
  end.

(* ------------------------------------------------------------------ *)
(** ** Reading numbers *)

Definition is_digit (c : Z) : bool := (48 <=? c) && (c <=? 57).

(** The leading decimal digits and what follows them. *)
Fixpoint take_digits (l : list Z) : list Z * list Z :=
  match l with
  | c :: rest => if is_digit c
                 then let (ds, tail) := take_digits rest in (c - 48 :: ds, tail)
                 else ([], l)
  | [] => ([], [])
  end.

Definition number_of_digits (base : Z) (ds : list Z) : Z :=
  fold_left (fun acc d => acc * base + d) ds 0.

(** The number [(-1)^neg * mantissa * 10^scale]. *)
Definition decimal_value (neg : bool) (mantissa scale : Z) : float :=
  let magnitude :=
    if mantissa =? 0 then 0%float
    else
      let size := Z.of_nat (String.length (digits_of mantissa)) + scale in
      if 400 <? size then infinity
      else if size <? -400 then 0%float
      else let (num, den) := scale10 (mantissa, 1) scale in nearest_double num den in
  if neg then (- magnitude)%float else magnitude.

(** [e] or [E], an optional sign, digits: the exponent and the rest. *)
Definition take_exponent (l : list Z) : option (Z * list Z) :=
  match l with
  | c :: rest =>
      if (c =? 101) || (c =? 69) then
        let (neg, rest) := match rest with
                           | 45 :: r => (true, r)
                           | 43 :: r => (false, r)
                           | _ => (false, rest)
                           end in
        match take_digits rest with
        | ([], _) => None
        | (ds, tail) => let e := number_of_digits 10 ds in
                        Some (if neg then - e else e, tail)
        end
      else Some (0, l)
  | [] => Some (0, [])
  end.

(** StrUnsignedDecimalLiteral, all of [l]. *)
Definition unsigned_decimal (neg : bool) (l : list Z) : float :=
  let (int, rest) := take_digits l in
  let (frac, rest) := match rest with
                      | 46 :: r => take_digits r
                      | _ => ([], rest)
                      end in
  match int, frac with
  | [], [] => nan
  | _, _ =>
      match take_exponent rest with
      | Some (e, []) =>
          decimal_value neg (number_of_digits 10 (int ++ frac)) (e - Z.of_nat (length frac))
      | _ => nan
      end
  end.

Definition digit_value (base c : Z) : option Z :=
  let d := if is_digit c then c - 48
           else if (97 <=? c) && (c <=? 102) then c - 87
           else if (65 <=? c) && (c <=? 70) then c - 55
           else 99 in
  if d <? base then Some d else None.

Fixpoint radix_digits (base : Z) (l : list Z) : option (list Z) :=
  match l with
  | [] => Some []
  | c :: rest => match digit_value base c, radix_digits base rest with
                 | Some d, Some ds => Some (d :: ds)
                 | _, _ => None
                 end
  end.

Definition radix_value (base : Z) (l : list Z) : float :=
  match l, radix_digits base l with
  | _ :: _, Some ds => decimal_value false (number_of_digits base ds) 0
  | _, _ => nan
  end.

Definition Infinity_text : list Z := bytes_of "Infinity".

Definition same_bytes (a b : list Z) : bool :=
  (length a =? length b)%nat && forallb (fun p => fst p =? snd p) (combine a b).

(** StringToNumber *)
Definition stringToNumber (s : string) : float :=
  match bytes_of (trim s) with
  | [] => 0%float
  | 48 :: 120 :: rest | 48 :: 88 :: rest => radix_value 16 rest
  | 48 :: 111 :: rest | 48 :: 79 :: rest => radix_value 8 rest
  | 48 :: 98 :: rest | 48 :: 66 :: rest => radix_value 2 rest
  | 45 :: rest =>
      if same_bytes rest Infinity_text then neg_infinity else unsigned_decimal true rest
  | 43 :: rest =>
      if same_bytes rest Infinity_text then infinity else unsigned_decimal false rest
  | l => if same_bytes l Infinity_text then infinity else unsigned_decimal false l
  end.

(* ------------------------------------------------------------------ *)
(** ** [JSON.stringify] *)

Definition hex_digit (d : Z) : string :=
  char (if d <? 10 then 48 + d else 87 + d).

Definition hex4 (u : Z) : string :=
  hex_digit (u / 4096 mod 16) ++ hex_digit (u / 256 mod 16)
  ++ hex_digit (u / 16 mod 16) ++ hex_digit (u mod 16).

Definition escape_code_unit (u : Z) : string := "\u" ++ hex4 u.

(** QuoteJSONString without the enclosing quotes.  A lone surrogate is the
    three bytes ED A0..BF 80..BF. *)
Fixpoint quote_body (l : list Z) : string :=
  match l with
  | [] => ""
  | c :: rest =>
      if (c =? 237)
         && match rest with b :: _ :: _ => (160 <=? b) && (b <=? 191) | _ => false end
      then match rest with
           | b :: d :: rest' =>
               escape_code_unit (53248 + (b - 128) * 64 + (d - 128)) ++ quote_body rest'
           | _ => ""
           end
      else
        (if c =? 34 then "\" ++ dq
         else if c =? 92 then "\\"
         else if c =? 8 then "\b"
         else if c =? 9 then "\t"
         else if c =? 10 then "\n"
         else if c =? 12 then "\f"
         else if c =? 13 then "\r"
         else if c <? 32 then escape_code_unit c
         else char c) ++ quote_body rest
  end.

Definition quote (s : string) : string := dq ++ quote_body (bytes_of s) ++ dq.

Definition is_finite (x : float) : bool :=
  match Prim2SF x with
  | S754_finite _ _ _ | S754_zero _ => true
  | _ => false
  end.

Definition bracketed (opening closing gap indent stepback : string) (parts : list string)
  : string :=
  match parts with
  | [] => opening ++ closing
  | _ => if String.eqb gap ""
         then opening ++ join "," parts ++ closing
         else opening ++ nl ++ indent ++ join ("," ++ nl ++ indent) parts
              ++ nl ++ stepback ++ closing
  end.

(** SerializeJSONProperty; [None] is [undefined]. *)
Fixpoint serialize (gap indent : string) (v : value) : option string :=
  match v with
  | VUndefined => None
  | VNull => Some "null"
  | VBool true => Some "true"
  | VBool false => Some "false"
  | VNum x => Some (if is_finite x then toString x else "null")
  | VStr s => Some (quote s)
  | VArr items =>
      let parts := map (fun e => match serialize gap (indent ++ gap) e with
                                 | Some s => s
                                 | None => "null"
                                 end) items in
      Some (bracketed "[" "]" gap (indent ++ gap) indent parts)
  | VObj fields =>
      let parts := flat_map (fun kv => match serialize gap (indent ++ gap) (snd kv) with
                                       | Some s => [quote (fst kv) ++ ":"
                                                    ++ (if String.eqb gap "" then "" else " ")
                                                    ++ s]
                                       | None => []
                                       end) fields in
      Some (bracketed "{" "}" gap (indent ++ gap) indent parts)
  end.

Fixpoint spaces (n : nat) : string :=
  match n with O => "" | S n' => " " ++ spaces n' end.

(** [JSON.stringify(v, null, space)] *)
Definition json_stringify (v : value) (space : nat) : option string :=
  serialize (spaces (Nat.min space 10)) "" v.

(* ------------------------------------------------------------------ *)
(** ** [JSON.parse] *)

(** The SyntaxError at the unread input [rest] of a text of [total]
    bytes, worded after V8. *)
Definition syntax_error {A : Type} (total : nat) (rest : list Z) : string + A :=
  inl match rest with
      | [] => "Unexpected end of JSON input"
      | _ => "Unexpected token in JSON at position "
             ++ string_of_nat (total - length rest)
      end.

Fixpoint skip_ws (l : list Z) : list Z :=
  match l with
  | c :: rest => if (c =? 32) || (c =? 9) || (c =? 10) || (c =? 13) then skip_ws rest else l
  | [] => []
  end.

(** UTF-8 (three bytes for a lone surrogate too). *)
Definition utf8 (cp : Z) : list Z :=
  if cp <? 128 then [cp]
  else if cp <? 2048 then [192 + cp / 64; 128 + cp mod 64]
  else if cp <? 65536 then [224 + cp / 4096; 128 + cp / 64 mod 64; 128 + cp mod 64]
  else [240 + cp / 262144; 128 + cp / 4096 mod 64; 128 + cp / 64 mod 64; 128 + cp mod 64].

(** Four hexadecimal digits: the code unit and the rest. *)
Definition take_hex4 (l : list Z) : option (Z * list Z) :=
  match l with
  | a :: b :: c :: d :: rest =>
      match digit_value 16 a, digit_value 16 b, digit_value 16 c, digit_value 16 d with
      | Some a, Some b, Some c, Some d => Some (a * 4096 + b * 256 + c * 16 + d, rest)
      | _, _, _, _ => None
      end
  | _ => None
  end.

(** A string after its opening quote: the bytes read so far are [acc],
    newest first.  Yields the string and what follows the closing quote, or
    the input at which reading stopped. *)
Fixpoint string_body (fuel : nat) (acc : list Z) (l : list Z)
  : list Z + (string * list Z) :=
  match fuel with
  | O => inl l
  | S fuel' =>
      match l with
      | [] => inl []
      | 34 :: rest => inr (string_of_bytes (rev acc), rest)
      | 92 :: e :: rest =>
          let simple (b : Z) := string_body fuel' (b :: acc) rest in
          if e =? 34 then simple 34
          else if e =? 92 then simple 92
          else if e =? 47 then simple 47
          else if e =? 98 then simple 8
          else if e =? 102 then simple 12
          else if e =? 110 then simple 10
          else if e =? 114 then simple 13
          else if e =? 116 then simple 9
          else if e =? 117 then
            match take_hex4 rest with
            | None => inl (e :: rest)
            | Some (hi, rest1) =>
                let alone := string_body fuel' (rev (utf8 hi) ++ acc) rest1 in
                if (55296 <=? hi) && (hi <=? 56319) then
                  match rest1 with
                  | 92 :: 117 :: rest2 =>
                      match take_hex4 rest2 with
                      | Some (lo, rest3) =>
                          if (56320 <=? lo) && (lo <=? 57343)
                          then string_body fuel'
                                 (rev (utf8 (65536 + (hi - 55296) * 1024 + (lo - 56320))) ++ acc)
                                 rest3
                          else alone
                      | None => alone
                      end
                  | _ => alone
                  end
                else alone
            end
          else inl (e :: rest)
      | c :: rest => if c <? 32 then inl l else string_body fuel' (c :: acc) rest
      end
  end.

(** A number: an optional minus, an integer part with no leading zero,
    an optional fraction, an optional exponent. *)
Definition number (l : list Z) : list Z + (float * list Z) :=
  let (neg, l1) := match l with 45 :: r => (true, r) | _ => (false, l) end in
  match take_digits l1 with
  | ([], _) => inl l1
  | (int, rest) =>
      match int, rest with
      | 0 :: _ :: _, _ => inl (skipn 1 l1)
      | _, _ =>
          let after_frac :=
            match rest with
            | 46 :: r => match take_digits r with
                         | ([], _) => inl r
                         | (frac, rest') => inr (frac, rest')
                         end
            | _ => inr ([], rest)
            end in
          match after_frac with
          | inl stop => inl stop
          | inr (frac, rest') =>
              match rest' with
              | c :: _ =>
                  if (c =? 101) || (c =? 69) then
                    match take_exponent rest' with
                    | Some (e, tail) =>
                        inr (decimal_value neg (number_of_digits 10 (int ++ frac))
                                           (e - Z.of_nat (length frac)), tail)
                    | None => inl (skipn 1 rest')
                    end
                  else inr (decimal_value neg (number_of_digits 10 (int ++ frac))
                                          (- Z.of_nat (length frac)), rest')
              | [] => inr (decimal_value neg (number_of_digits 10 (int ++ frac))
                                         (- Z.of_nat (length frac)), [])
              end
          end
      end
  end.

(** [l] without the bytes of [word] at its head. *)
Fixpoint after_word (word l : list Z) : list Z + list Z :=
  match word, l with
  | [], _ => inr l
  | w :: word', c :: rest => if w =? c then after_word word' rest else inl l
  | _ :: _, [] => inl []
  end.

(** An array index: a canonical numeral below 2^32 - 1. *)
Definition array_index (key : string) : option Z :=
  match take_digits (bytes_of key) with
  | (d :: ds, []) =>
      let n := number_of_digits 10 (d :: ds) in
      if ((negb (d =? 0)) || (length ds =? 0)%nat) && (n <? 4294967295)
      then Some n else None
  | _ => None
  end.

(** [object[key] = v], keeping the place of a key already there. *)
Fixpoint define (fields : list (string * value)) (key : string) (v : value)
  : list (string * value) :=
  match fields with
  | [] => [(key, v)]
  | (k, old) :: rest =>
      if String.eqb k key then (k, v) :: rest else (k, old) :: define rest key v
  end.

Fixpoint insert_index (n : Z) (kv : string * value) (sorted : list (Z * (string * value)))
  : list (Z * (string * value)) :=
  match sorted with
  | [] => [(n, kv)]
  | (m, kv') :: rest =>
      if n <? m then (n, kv) :: sorted else (m, kv') :: insert_index n kv rest
  end.

(** The order in which an object lists its own keys: array indices
    ascending, then the other keys as they were created. *)
Definition own_keys_order (fields : list (string * value)) : list (string * value) :=
  let indexed := fold_left (fun acc kv => match array_index (fst kv) with
                                          | Some n => insert_index n kv acc
                                          | None => acc
                                          end) fields [] in
  map snd indexed
  ++ filter (fun kv => match array_index (fst kv) with Some _ => false | None => true end)
            fields.

Section Parser.
Variable total : nat.

Fixpoint parse_value (fuel : nat) (l : list Z) : string + (value * list Z) :=
  match fuel with
  | O => syntax_error total l
  | S fuel' =>
      match skip_ws l with
      | [] => syntax_error total []
      | c :: rest =>
          let literal (word : string) (v : value) :=
            match after_word (bytes_of word) (c :: rest) with
            | inr tail => inr (v, tail)
            | inl stop => syntax_error total stop
            end in
          if c =? 110 then literal "null" VNull
          else if c =? 116 then literal "true" (VBool true)
          else if c =? 102 then literal "false" (VBool false)
          else if c =? 34 then
            match string_body (length rest + 1) [] rest with
            | inr (s, tail) => inr (VStr s, tail)
            | inl stop => syntax_error total stop
            end
          else if c =? 91 then
            match skip_ws rest with
            | 93 :: tail => inr (VArr [], tail)
            | _ => match parse_elements fuel' [] rest with
                   | inr (items, tail) => inr (VArr items, tail)
                   | inl e => inl e
                   end
            end
          else if c =? 123 then
            match skip_ws rest with
            | 125 :: tail => inr (VObj [], tail)
            | _ => match parse_members fuel' [] rest with
                   | inr (fields, tail) => inr (VObj (own_keys_order fields), tail)
                   | inl e => inl e
                   end
            end
          else if (c =? 45) || is_digit c then
            match number (c :: rest) with
            | inr (x, tail) => inr (VNum x, tail)
            | inl stop => syntax_error total stop
            end
          else syntax_error total (c :: rest)
      end
  end
(** The elements of an array after [[] or [,]; [acc] newest first. *)
with parse_elements (fuel : nat) (acc : list value) (l : list Z)
  : string + (list value * list Z) :=
  match fuel with
  | O => syntax_error total l
  | S fuel' =>
      match parse_value fuel' l with
      | inl e => inl e
      | inr (v, rest) =>
          match skip_ws rest with
          | 44 :: tail => parse_elements fuel' (v :: acc) tail
          | 93 :: tail => inr (rev (v :: acc), tail)
          | stop => syntax_error total stop
          end
      end
  end
(** The members of an object after [{] or [,]. *)
with parse_members (fuel : nat) (fields : list (string * value)) (l : list Z)
  : string + (list (string * value) * list Z) :=
  match fuel with
  | O => syntax_error total l
  | S fuel' =>
      match skip_ws l with
      | 34 :: rest =>
          match string_body (length rest + 1) [] rest with
          | inl stop => syntax_error total stop
          | inr (key, rest1) =>
              match skip_ws rest1 with
              | 58 :: rest2 =>
                  match parse_value fuel' rest2 with
                  | inl e => inl e
                  | inr (v, rest3) =>
                      match skip_ws rest3 with
                      | 44 :: tail => parse_members fuel' (define fields key v) tail
                      | 125 :: tail => inr (define fields key v, tail)
                      | stop => syntax_error total stop
                      end
                  end
              | stop => syntax_error total stop
              end
          end
      | stop => syntax_error total stop
      end
  end.

End Parser.

(** [JSON.parse(text)] *)
Definition json_parse (text : string) : string + value :=
  let l := bytes_of text in
  match parse_value (length l) (2 * length l + 2) l with
  | inl e => inl e
  | inr (v, rest) =>
      match skip_ws rest with
      | [] => inr v
      | stop => syntax_error (length l) stop
      end
  end.

(** The runtime made of the definitions above. *)
#[export] Instance reference_runtime : Runtime := {
  String_trim := trim;
  JSON_parse := json_parse;
  JSON_stringify := json_stringify;
  Number_toString := toString;
  Number_toFixed := toFixed;
  StringToNumber := stringToNumber;
  TypeError_cannot_read := fun base prop =>
    "Cannot read properties of " ++ base ++ " (reading '" ++ prop ++ "')"
}.

End Reference.

(* ================================================================== *)
(** * Reading a trace *)
(* ================================================================== *)

(** The outbound calls among the events, console lines left out. *)
Definition is_call (e : Event) : bool :=
  match e with
  | Aggregate _ _ | Completion _ _ => true
  | Console_log _ | Console_error _ => false
  end.

Definition calls (events : list Event) : list Event := filter is_call events.

(** What the store answered, attempt by attempt. *)
Definition aggregate_outcomes (events : list Event) : list (string + list Document) :=
  flat_map (fun e => match e with Aggregate _ o => [o] | _ => [] end) events.

(** The number of execution attempts made against the store. *)
Definition attempts (events : list Event) : nat := length (aggregate_outcomes events).

(** What the oracle answered, call by call. *)
Definition completion_outcomes (events : list Event) : list (string + ChatResponse) :=
  flat_map (fun e => match e with Completion _ o => [o] | _ => [] end) events.

Definition failed {A : Type} (outcome : string + A) : Prop :=
  match outcome with inl _ => True | inr _ => False end.

Definition succeeded {A : Type} (outcome : string + A) : Prop :=
  match outcome with inl _ => False | inr _ => True end.

(* ================================================================== *)
(** * The error taxonomy *)
(* ================================================================== *)

(** Every error of the services is a plain [Error]; its kind is told by
    the message its [throw] site builds. *)
Definition NotInitializedError (message : string) : bool :=
  String.eqb message "Query Generator not initialized"
  || String.eqb message "Result Analyzer not initialized".

Definition TranslationError (message : string) : bool :=
  prefix "Failed to generate MongoDB query: " message
  || prefix "Failed to fix query: " message.

Definition QueryExecutionError (message : string) : bool :=
  prefix "Database query failed after " message.

Definition QueryRepairError (message : string) : bool :=
  prefix "Query could not be fixed: " message.

Definition AnalysisError (message : string) : bool :=
  prefix "Failed to analyze results: " message.

(* ================================================================== *)
(** * The summary in the words of its description *)
(* ================================================================== *)

(** A record that carries an identifier field plus at least one recognized
    aggregate-value field. *)
Definition carries_aggregate (r : Document) : bool :=
  hasOwnProperty r "_id"
  && (hasOwnProperty r "avgRating"
      || hasOwnProperty r "averageRating"
      || hasOwnProperty r "totalSessions"
      || hasOwnProperty r "count"
      || hasOwnProperty r "sum"
      || hasOwnProperty r "avg").

(** Recognized as aggregated when each record carries those fields and the
    set has at most 200 records. *)
Definition each_record_aggregated (results : list Document) : bool :=
  forallb carries_aggregate results && (length results <=? 200)%nat.

(** A record that has the numeric rating field. *)
Definition has_numeric_rating (r : Document) : bool :=
  match member (field r "ratings") "overallAverage" with
  | VNum _ => true
  | _ => false
  end.

(** A structured query: a sequence of stage objects. *)
Definition is_stage_object (v : value) : bool :=
  match v with VObj _ => true | _ => false end.

Definition is_structured_query (v : value) : bool :=
  match v with
  | VArr stages => forallb is_stage_object stages
  | _ => false
  end.

(** No value of the list is the same (SameValueZero) as one before it. *)
Definition Distinct (l : list value) : Prop :=
  forall before v after,
    l = (before ++ v :: after)%list -> existsb (SameValueZero v) before = false.

Section Digest.
Context {rt : Runtime}.

(** The ratings that count: [ratings.overallAverage] of the records where
    [ratings] and it are truthy. *)
Definition counted_ratings (results : list Document) : list value :=
  filter ToBoolean (map overallAverage_if_any results).

(** Their mean: the sum by [+] from 0, divided by their number. *)
Definition mean (ratings : list value) : float :=
  js_div (fold_left js_add ratings (VNum 0)) (VNum (float_of_nat (length ratings))).

(** The distinct truthy values of a field, in order of first appearance. *)
Definition distinct_values (key : string) (results : list Document) : list value :=
  Set_of (filter ToBoolean (map (fun r => field r key) results)).

Definition rating_line (results : list Document) : string :=
  match counted_ratings results with
  | [] => ""
  | ratings => "- Average rating across results: " ++ Number_toFixed (mean ratings) 2 ++ nl
  end.

Definition instructors_line (results : list Document) : string :=
  match distinct_values "instructor" results with
  | [] => ""
  | names => "- Unique instructors: " ++ string_of_nat (length names)
             ++ " (" ++ Array_join (firstn 5 names) ", "
             ++ (if (5 <? length names)%nat then "..." else "") ++ ")" ++ nl
  end.

Definition domains_line (results : list Document) : string :=
  match distinct_values "domain" results with
  | [] => ""
  | domains => "- Domains covered: " ++ Array_join domains ", " ++ nl
  end.

(** The bounded digest: the total count, the first 10 records verbatim,
    then the three lines above. *)
Definition digest (results : list Document) : string :=
  "Data overview:" ++ nl
  ++ "- Total records: " ++ string_of_nat (length results) ++ nl
  ++ "- Sample data (first 10 records): " ++ stringify (array_of (firstn 10 results)) 2 ++ nl
  ++ rating_line results
  ++ instructors_line results
  ++ domains_line results.

End Digest.

(* ================================================================== *)
(** * The retry loop as a state machine *)
(* ================================================================== *)

Section Machine.
Context {rt : Runtime}.

(** What [fixQuery] makes of the oracle's answer. *)
Definition repaired (outcome : string + ChatResponse) : string + value :=
  match outcome with
  | inl unavailable => inl ("Failed to fix query: " ++ unavailable)
  | inr [] => inl ("Failed to fix query: " ++ TypeError_cannot_read "undefined" "message")
  | inr (None :: _) => inl ("Failed to fix query: " ++ TypeError_cannot_read "null" "trim")
  | inr (Some text :: _) =>
      match JSON_parse (String_trim text) with
      | inl syntaxError => inl ("Failed to fix query: " ++ syntaxError)
      | inr fixedQuery => inr fixedQuery
      end
  end.

(** The calls a run makes from attempt number [attempt] with the query
    [query], and how it ends: Pending, Executing, then Success, Exhausted,
    RepairFailed, or Repairing and Executing again with the repaired
    query. *)
Inductive Run (this : Service) (originalQuery : string) (maxRetries : Z)
  : Z -> value -> list Event -> string + option (list Document) -> Prop :=
| Run_nothing attempt query :
    (maxRetries <= attempt)%Z ->
    Run this originalQuery maxRetries attempt query [] (inr None)
| Run_success attempt query results :
    (attempt < maxRetries)%Z ->
    Run this originalQuery maxRetries attempt query
        [Aggregate query (inr results)] (inr (Some results))
| Run_exhausted attempt query message :
    (attempt = maxRetries - 1)%Z ->
    Run this originalQuery maxRetries attempt query
        [Aggregate query (inl message)]
        (inl ("Database query failed after " ++ string_of_Z maxRetries
              ++ " attempts: " ++ message))
| Run_repair_failed attempt query message answer fixError :
    (attempt < maxRetries - 1)%Z ->
    repaired answer = inl fixError ->
    Run this originalQuery maxRetries attempt query
        [Aggregate query (inl message);
         Completion (fixRequest this originalQuery message query) answer]
        (inl ("Query could not be fixed: " ++ fixError))
| Run_repaired attempt query message answer fixed rest result :
    (attempt < maxRetries - 1)%Z ->
    repaired answer = inr fixed ->
    Run this originalQuery maxRetries (attempt + 1) fixed rest result ->
    Run this originalQuery maxRetries attempt query
        (Aggregate query (inl message)
         :: Completion (fixRequest this originalQuery message query) answer
         :: rest)
        result.

End Machine.

(* ================================================================== *)
(** * Scripted collaborators *)
(* ================================================================== *)

(** A store and an oracle that answer from a script, one entry per call,
    whatever they are asked. *)
Module Scripted.

Record Script : Type := {
  store : list (string + list Document);
  oracle : list (string + ChatResponse)
}.

#[export] Instance collaborators : Collaborators := {
  World := Script;
  collection_aggregate := fun _ w =>
    match store w with
    | answer :: later => (answer, {| store := later; oracle := oracle w |})
    | [] => (inl "connection closed", w)
    end;
  chat_completions_create := fun _ w =>
    match oracle w with
    | answer :: later => (answer, {| store := store w; oracle := later |})
    | [] => (inl "Connection error.", w)
    end
}.

(** The state right after both modules were loaded. *)
Definition loaded (w : Script) : State :=
  {| world := w; queryGenerator := new_Service; resultAnalyzer := new_Service; trace := [] |}.

(** The state after [initializeContexts] ran both [initialize]. *)
Definition initialized (w : Script) : State :=
  snd (ResultAnalyzer_initialize (snd (QueryGenerator_initialize (loaded w)))).

End Scripted.

(* ================================================================== *)
(** * Concrete inputs *)
(* ================================================================== *)

Module Examples.
Import Scripted.

Definition question : string := "Average rating for Rishi Bollu".

Definition pipeline : value :=
  VArr [VObj [("$match", VObj [("instructor", VStr "Rishi Bollu")])]].

(** The store fails twice; the oracle repairs with the empty pipeline. *)
Definition store_fails_twice : Script :=
  {| store := [inl "unknown operator: $avgg"; inl "pipeline is empty"];
     oracle := [inr [Some "[]"]] |}.

(** The store fails once and would answer next; the oracle is down. *)
Definition oracle_down : Script :=
  {| store := [inl "unknown operator: $avgg"; inr []];
     oracle := [inl "Connection error."] |}.

(** The oracle answers with [text]. *)
Definition oracle_says (text : string) : Script :=
  {| store := []; oracle := [inr [Some text]] |}.

(** Eleven records: an aggregate-looking one, then ten plain sessions. *)
Definition mixed : list Document :=
  [("_id", VStr "A"); ("count", VNum 1)]
  :: repeat [("instructor", VStr "Rishi Bollu")] 10.

(** Eleven sessions rated 0. *)
Definition zero_rated : list Document :=
  repeat [("ratings", VObj [("overallAverage", VNum 0)])] 11.

(** Eleven sessions of one instructor in one domain, rated 4.5. *)
Definition sessions : list Document :=
  repeat [("instructor", VStr "Rishi Bollu");
          ("domain", VStr "SRE");
          ("ratings", VObj [("overallAverage", VNum 4.5)])] 11.

(** Twelve sessions of six instructors; two of them are not rated. *)
Definition varied : list Document :=
  flat_map (fun name => [ [("instructor", VStr name);
                           ("domain", VStr "Cloud");
                           ("ratings", VObj [("overallAverage", VNum 4)])];
                          [("instructor", VStr name);
                           ("domain", if String.eqb name "A" then VStr "SRE" else VNull);
                           ("ratings", if String.eqb name "A" then VNull
                                       else VObj [("overallAverage", VNum 3.5)])] ])
           ["A"; "B"; "C"; "D"; "E"; "F"].

(** Five aggregated records. *)
Definition averages : list Document :=
  repeat [("_id", VStr "A"); ("avgRating", VNum 4.2)] 5.

(** The oracle translates the question, then narrates; the store answers
    with one aggregated record. *)
Definition all_well : Script :=
  {| store := [inr [[("_id", VNull); ("avgRating", VNum 4.3)]]];
     oracle :=
       [inr [Some (quoted
          "[{`$match`:{`instructor`:`Rishi Bollu`}},{`$group`:{`_id`:null,`avgRating`:{`$avg`:`$ratings.overallAverage`}}}]")];
        inr [Some " Rishi Bollu averages 4.3 out of 5. "]] |}.

(** [generateQuery] as described: a structured query or a
    TranslationError. *)
Definition generateQuery_as_described (result : string + value) : bool :=
  match result with
  | inr mongoQuery => is_structured_query mongoQuery
  | inl message => TranslationError message
  end.

End Examples.

(* ================================================================== *)
(** * The rest of MongoService, and the request handlers *)
(* ================================================================== *)

(** What the server needs from its host beyond the two collaborators: the
    MongoDB driver and the clock.  A driver call stands for the whole
    expression the service awaits, so a handle that was never set shows as
    a rejected call. *)
Class Host {env : Collaborators} : Type := {
  (** [new MongoClient(process.env.MONGODB_URI)]: built, or the message of
      what the constructor throws *)
  MongoClient_new : World -> string + unit;
  (** [await this.client.connect()] *)
  client_connect : World -> (string + unit) * World;
  (** [await this.collection.countDocuments()] *)
  collection_countDocuments : World -> (string + nat) * World;
  (** [await this.collection.find({}).limit(limit).toArray()] *)
  collection_find_limit : Z -> World -> (string + list Document) * World;
  (** [await this.db.runCommand({ collStats: "sessions" })] *)
  db_runCommand_collStats : World -> (string + Document) * World;
  (** [await this.client.close()] *)
  client_close : World -> (string + unit) * World;
  (** [new Date().toISOString()] *)
  Date_toISOString : World -> string;
  (** message of the TypeError raised by calling [callee], which is not a
      function *)
  TypeError_not_a_function : string -> string
}.

(** The driver calls a server makes, [aggregate] apart (it is in the
    trace). *)
Inductive DriverCall : Type :=
| Connect (outcome : string + unit)
| CountDocuments (outcome : string + nat)
| Find (limit : Z) (outcome : string + list Document)
| CollStats (outcome : string + Document)
| Close (outcome : string + unit).

(** The fields of [MongoService] the code tests: whether [client] is set,
    and [isConnected]. *)
Record MongoService : Type := { client : bool; isConnected : bool }.

(** The constructor: [client = null], [isConnected = false]. *)
Definition new_MongoService : MongoService := {| client := false; isConnected := false |}.

(** What [res.json] is given. *)
Inductive Body : Type :=
| Answer (query : string) (resultCount : nat) (analysis : string)
         (rawResults : list Document) (executionTime : string)
| Refusal (error : string)
| Healthy (message : string) (contextInitialized : bool).

Record Response : Type := { status : Z; body : Body }.

Section Server.
Context {rt : Runtime} {env : Collaborators} {host : Host}.

(** A server process: the three singletons, the module variable
    [isContextInitialized], and the driver calls made so far. *)
Record Server : Type := {
  services : State;
  mongoService : MongoService;
  isContextInitialized : bool;
  driver : list DriverCall
}.

(** A computation of the server: as [M], over the server. *)
Definition Op (A : Type) : Type := Server -> (string + A) * Server.

Definition sret {A : Type} (a : A) : Op A := fun s => (inr a, s).

Definition sthrow {A : Type} (message : string) : Op A := fun s => (inl message, s).

Definition sbind {A B : Type} (m : Op A) (k : A -> Op B) : Op B :=
  fun s => match m s with
           | (inr a, s') => k a s'
           | (inl e, s') => (inl e, s')
           end.

(** [try { m } catch (error) { handler(error.message) }] *)
Definition stry {A : Type} (m : Op A) (handler : string -> Op A) : Op A :=
  fun s => match m s with
           | (inl e, s') => handler e s'
           | (inr a, s') => (inr a, s')
           end.

(** A computation of the services, run inside the server. *)
Definition lift {A : Type} (m : M A) : Op A :=
  fun s => let (result, services') := m (services s) in
           (result, {| services := services';
                       mongoService := mongoService s;
                       isContextInitialized := isContextInitialized s;
                       driver := driver s |}).

#[local] Notation "x <- m ;; k" := (sbind m (fun x => k))
  (at level 61, m at next level, right associativity).
#[local] Notation "m ;; k" := (sbind m (fun _ => k))
  (at level 61, right associativity).

Definition with_world (s : Server) (w : World) : State :=
  {| world := w;
     queryGenerator := queryGenerator (services s);
     resultAnalyzer := resultAnalyzer (services s);
     trace := trace (services s) |}.

(** A driver call: the world moves on and the call is recorded. *)
Definition driver_call {A : Type} (call : World -> (string + A) * World)
    (record : string + A -> DriverCall) : Op A :=
  fun s => let (outcome, w) := call (world (services s)) in
           (outcome, {| services := with_world s w;
                        mongoService := mongoService s;
                        isContextInitialized := isContextInitialized s;
                        driver := driver s ++ [record outcome] |}).

Definition get_mongoService : Op MongoService := fun s => (inr (mongoService s), s).

Definition set_mongoService (this : MongoService) : Op unit :=
  fun s => (inr tt, {| services := services s;
                       mongoService := this;
                       isContextInitialized := isContextInitialized s;
                       driver := driver s |}).

(* ------------------------------------------------------------------ *)
(** ** MongoService *)

Definition testConnection : Op nat :=
  stry
    (count <- driver_call collection_countDocuments CountDocuments ;;
     lift (console_log ("📊 Database contains " ++ string_of_nat count
                        ++ " session records")) ;;
     sret count)
    (fun error => sthrow ("Database test failed: " ++ error)).

Definition connect : Op unit :=
  stry
    (this <- get_mongoService ;;
     if isConnected this then sret tt
     else
       (fun s => match MongoClient_new (world (services s)) with
                 | inl error => (inl error, s)
                 | inr built => (inr built, s)
                 end) ;;
       set_mongoService {| client := true; isConnected := isConnected this |} ;;
       driver_call client_connect Connect ;;
       set_mongoService {| client := true; isConnected := true |} ;;
       lift (console_log "✅ Connected to MongoDB Atlas") ;;
       testConnection ;;
       sret tt)
    (fun error =>
       lift (console_error ("❌ MongoDB connection failed: " ++ error)) ;;
       sthrow ("Database connection failed: " ++ error)).

Definition executeRawQuery (pipeline : value) : Op (list Document) :=
  stry
    (this <- get_mongoService ;;
     if negb (isConnected this) then sthrow "Database not connected"
     else lift (aggregate_toArray pipeline))
    (fun error => sthrow ("Raw query execution failed: " ++ error)).

Definition getSampleData (limit : Z) : Op (list Document) :=
  stry
    (driver_call (collection_find_limit limit) (Find limit))
    (fun error => sthrow ("Failed to get sample data: " ++ error)).

Definition getCollectionStats : Op Document :=
  stry
    (stats <- driver_call db_runCommand_collStats CollStats ;;
     sret [("documentCount", field stats "count");
           ("avgDocumentSize", field stats "avgObjSize");
           ("totalSize", field stats "size");
           ("storageSize", field stats "storageSize")])
    (fun error => sthrow ("Failed to get collection stats: " ++ error)).

Definition disconnect : Op unit :=
  stry
    (this <- get_mongoService ;;
     if client this then
       driver_call client_close Close ;;
       set_mongoService {| client := client this; isConnected := false |} ;;
       lift (console_log "✅ MongoDB disconnected")
     else sret tt)
    (fun error =>
       lift (console_error ("❌ Error disconnecting from MongoDB: " ++ error))).

(* ------------------------------------------------------------------ *)
(** ** The handlers *)

Definition set_isContextInitialized (flag : bool) : Op unit :=
  fun s => (inr tt, {| services := services s;
                       mongoService := mongoService s;
                       isContextInitialized := flag;
                       driver := driver s |}).

Definition initializeContexts : Op unit :=
  fun s =>
    if negb (isContextInitialized s) then
      (lift (console_log "🔄 Initializing global contexts...") ;;
       lift QueryGenerator_initialize ;;
       lift ResultAnalyzer_initialize ;;
       connect ;;
       set_isContextInitialized true ;;
       lift (console_log "✅ Global contexts initialized")) s
    else (inr tt, s).

(** [res.status(code).json(body)] *)
Definition respond (code : Z) (content : Body) : Response :=
  {| status := code; body := content |}.

(** The [try] block of the query handlers after [initializeContexts]:
    [query] is [req.body.query], whatever the JSON body holds there, or
    [undefined].  [query.trim] is a function on a string only. *)
Definition processQuery (query : value) : Op Response :=
  if negb (ToBoolean query) then sret (respond 400 (Refusal "Query is required"))
  else
    match query with
    | VStr query =>
        if String.eqb (String_trim query) "" then
          sret (respond 400 (Refusal "Query is required"))
        else
          lift (console_log ("📝 Processing query: " ++ dq ++ query ++ dq)) ;;
          lift (console_log "🔄 Generating MongoDB query...") ;;
          mongoQuery <- lift (generateQuery query) ;;
          lift (console_log "✅ MongoDB query generated") ;;
          lift (console_log "🔄 Executing database query...") ;;
          results <- lift (executeQueryWithRetry mongoQuery query 2) ;;
          match results with
          | None => sthrow (TypeError_cannot_read "undefined" "length")
          | Some results =>
              lift (console_log ("✅ Query executed successfully, "
                                 ++ string_of_nat (length results) ++ " results found")) ;;
              lift (console_log "🔄 Analyzing results...") ;;
              analysis <- lift (analyzeResults query results) ;;
              lift (console_log "✅ Results analyzed") ;;
              (fun s =>
                 (inr (respond 200
                         (Answer query (length results) analysis
                                 (if (length results <=? 200)%nat then results
                                  else slice0 50 results)
                                 (Date_toISOString (world (services s))))),
                  s))
          end
    | _ => sthrow (TypeError_not_a_function "query.trim")
    end.

(** The [catch] of the query handlers. *)
Definition query_failed (error : string) : Op Response :=
  lift (console_error ("❌ Query processing failed: " ++ error)) ;;
  sret (respond 500
          (Refusal (if negb (String.eqb error "") then error
                    else "An error occurred while processing your query"))).

(** [app.post("/api/query")] of the server whose contexts are initialized
    when it starts listening. *)
Definition server_post_query (query : value) : Op Response :=
  stry (processQuery query) query_failed.

(** [app.post("/api/query")] of the app that initializes its contexts at
    the first request. *)
Definition app_post_query (query : value) : Op Response :=
  stry (initializeContexts ;; processQuery query) query_failed.

Definition health_report : Op Response :=
  fun s => (inr (respond 200 (Healthy "Server and database are healthy"
                                      (isContextInitialized s))), s).

Definition health_failed (error : string) : Op Response :=
  sret (respond 500 (Refusal "Database connection failed")).

(** [app.get("/api/health")] of the server. *)
Definition server_get_health : Op Response :=
  stry (testConnection ;; health_report) health_failed.

(** [app.get("/api/health")] of the app. *)
Definition app_get_health : Op Response :=
  stry (initializeContexts ;; testConnection ;; health_report) health_failed.

End Server.

(** An error of one of the five kinds the services throw. *)
Definition service_error (message : string) : bool :=
  NotInitializedError message || TranslationError message
  || QueryExecutionError message || QueryRepairError message || AnalysisError message.

(** [typeof v === "string"] *)
Definition is_string (v : value) : bool :=
  match v with VStr _ => true | _ => false end.

(** A query the handlers refuse with 400: a falsy value, or a string of
    white space. *)
Definition blank_query {rt : Runtime} (query : value) : bool :=
  negb (ToBoolean query)
  || match query with
     | VStr text => String.eqb (String_trim text) ""
     | _ => false
     end.

(** [results.length <= 200 ? results : results.slice(0, 50)] *)
Definition rawResults_of (results : list Document) : list Document :=
  if (length results <=? 200)%nat then results else slice0 50 results.

(* ================================================================== *)
(** * The page script *)
(* ================================================================== *)

Section Page.
Context {rt : Runtime}.

(** [text.split(separator)] for a one-character separator. *)
Fixpoint split (separator : ascii) (text : string) : list string :=
  match text with
  | EmptyString => [""]
  | String c rest =>
      if Ascii.eqb c separator then "" :: split separator rest
      else match split separator rest with
           | first :: others => String c first :: others
           | [] => [String c ""]
           end
  end.

Fixpoint concat_strings (parts : list string) : string :=
  match parts with
  | [] => ""
  | part :: rest => part ++ concat_strings rest
  end.

(** [escapeHtml]: the text becomes the only text node of a [div], whose
    [innerHTML] the browser serializes by escaping [&], [<], [>] and the
    no-break space U+00A0 (the bytes C2 A0). *)
Fixpoint escapeHtml (text : string) : string :=
  match text with
  | EmptyString => ""
  | String c rest =>
      if Ascii.eqb c "&" then "&amp;" ++ escapeHtml rest
      else if Ascii.eqb c "<" then "&lt;" ++ escapeHtml rest
      else if Ascii.eqb c ">" then "&gt;" ++ escapeHtml rest
      else match rest with
           | String d rest' =>
               if Ascii.eqb c (ascii_of_nat 194) && Ascii.eqb d (ascii_of_nat 160)
               then "&nbsp;" ++ escapeHtml rest'
               else String c (escapeHtml rest)
           | EmptyString => String c ""
           end
  end.

(** [line.length]: UTF-16 code units of a UTF-8 text. *)
Fixpoint utf16_length (line : string) : nat :=
  match line with
  | EmptyString => 0
  | String c rest =>
      let b := nat_of_ascii c in
      (if (b <? 128)%nat then 1
       else if (b <? 192)%nat then 0
       else if (b <? 240)%nat then 1
       else 2) + utf16_length rest
  end.

(** [/^[A-Z]/.test(line)] *)
Definition starts_with_capital (line : string) : bool :=
  match line with
  | String c _ => (65 <=? nat_of_ascii c)%nat && (nat_of_ascii c <=? 90)%nat
  | EmptyString => false
  end.

(** [line.endsWith(".")] *)
Fixpoint endsWith_dot (line : string) : bool :=
  match line with
  | EmptyString => false
  | String c EmptyString => Ascii.eqb c "."
  | String _ rest => endsWith_dot rest
  end.

(** The callback of [map] in [formatAnalysis]. *)
Definition format_line (line : string) : string :=
  let line := String_trim line in
  if String.eqb line "" then "<br>"
  else if (utf16_length line <? 100)%nat && starts_with_capital line
          && negb (endsWith_dot line)
  then "<p><strong>" ++ escapeHtml line ++ "</strong></p>"
  else "<p>" ++ escapeHtml line ++ "</p>".

Definition formatAnalysis (analysis : string) : string :=
  concat_strings (map format_line (split (ascii_of_nat 10) analysis)).

(** No [<] and no [>]. *)
Fixpoint no_angle_bracket (text : string) : bool :=
  match text with
  | EmptyString => true
  | String c rest =>
      negb (Ascii.eqb c "<") && negb (Ascii.eqb c ">") && no_angle_bracket rest
  end.

End Page.

(* ================================================================== *)
(** * A scripted host *)
(* ================================================================== *)

Module Hosted.
Import Scripted.

(** A driver that answers the same at every call, and a stopped clock. *)
Definition host (connects : string + unit) (counts : string + nat) : Host :=
  {| MongoClient_new := fun _ => inr tt;
     client_connect := fun w => (connects, w);
     collection_countDocuments := fun w => (counts, w);
     collection_find_limit := fun _ w => (inr [], w);
     db_runCommand_collStats := fun w => (inr [("count", VNum 0)], w);
     client_close := fun w => (inr tt, w);
     Date_toISOString := fun _ => "2025-01-01T00:00:00.000Z";
     TypeError_not_a_function := fun callee => callee ++ " is not a function" |}.

(** The process right after its modules were loaded. *)
Definition started (w : Script) : Server :=
  {| services := loaded w;
     mongoService := new_MongoService;
     isContextInitialized := false;
     driver := [] |}.

(** The server once it listens: contexts initialized, database connected. *)
Definition listening (w : Script) : Server :=
  {| services := initialized w;
     mongoService := {| client := true; isConnected := true |};
     isContextInitialized := true;
     driver := [] |}.

(** 201 plain sessions. *)
Definition many_sessions : list Document :=
  repeat [("instructor", VStr "Rishi Bollu")] 201.

(** The oracle translates and narrates; the store answers 201 records. *)
Definition plenty : Script :=
  {| store := [inr many_sessions];
     oracle := [inr [Some "[]"]; inr [Some "Rishi Bollu taught 201 sessions."]] |}.

End Hosted.

(* ================================================================== *)
(** * Properties *)
(* ================================================================== *)

Section Properties.
Context {rt : Runtime} {env : Collaborators}.

Lemma prefix_app (p s : string) : prefix p (p ++ s) = true.
Proof.
  induction p as [|c p IH]; simpl.
  - now destruct s.
  - destruct (ascii_dec c c) as [_|ne]; [exact IH | now destruct ne].
Qed.

Lemma calls_app (a b : list Event) : calls (a ++ b) = (calls a ++ calls b)%list.
Proof. apply filter_app. Qed.

Lemma aggregate_outcomes_app (a b : list Event) :
  aggregate_outcomes (a ++ b) = (aggregate_outcomes a ++ aggregate_outcomes b)%list.
Proof. apply flat_map_app. Qed.

Lemma completion_outcomes_app (a b : list Event) :
  completion_outcomes (a ++ b) = (completion_outcomes a ++ completion_outcomes b)%list.
Proof. apply flat_map_app. Qed.

(** ** [fixQuery] *)

(** One run of [fixQuery]: one call to the oracle, the result read off its
    answer, the services untouched. *)
Lemma fixQuery_run (originalQuery errorMessage : string) (failedQuery : value) (s : State) :
  let request := fixRequest (queryGenerator s) originalQuery errorMessage failedQuery in
  let answer := fst (chat_completions_create request (world s)) in
  fixQuery originalQuery errorMessage failedQuery s =
    (repaired answer,
     {| world := snd (chat_completions_create request (world s));
        queryGenerator := queryGenerator s;
        resultAnalyzer := resultAnalyzer s;
        trace := trace s ++ Completion request answer
                 :: match repaired answer with
                    | inr fixedQuery =>
                        [Console_log ("Fixed MongoDB Query: " ++ stringify fixedQuery 2)]
                    | inl _ => []
                    end |}).
Proof.
  unfold fixQuery, bind, try_catch, get_queryGenerator, create; cbn.
  destruct (chat_completions_create _ (world s)) as [[unavailable|response] w]; cbn.
  - reflexivity.
  - destruct response as [|[text|] others]; cbn; try reflexivity.
    destruct (JSON_parse (String_trim text)) as [syntaxError|fixedQuery]; cbn.
    + reflexivity.
    + now rewrite <- app_assoc.
Qed.

(** ** Strings and lists *)

Lemma append_assoc (a b c : string) : (a ++ b) ++ c = a ++ (b ++ c).
Proof. induction a as [|ch a IH]; cbn; [reflexivity | now rewrite IH]. Qed.

Lemma append_empty_r (a : string) : a ++ "" = a.
Proof. induction a as [|ch a IH]; cbn; [reflexivity | now rewrite IH]. Qed.

Lemma if_nonempty {A B : Type} (l : list A) (some none : B) :
  (if (0 <? length l)%nat then some else none)
  = match l with [] => none | _ :: _ => some end.
Proof. now destruct l. Qed.

(** ** [Set] keeps the first of the values that are the same *)

Lemma Set_add_Distinct (seen : list value) (v : value) :
  Distinct seen -> Distinct (Set_add seen v).
Proof.
  intros distinct. unfold Set_add.
  destruct (existsb (SameValueZero v) seen) eqn:known; [exact distinct|].
  intros before x after split_at.
  destruct after as [|last_one after _] using rev_ind.
  - apply app_inj_tail in split_at. destruct split_at as [-> ->]. exact known.
  - change (before ++ x :: after ++ [last_one])%list
      with (before ++ (x :: after) ++ [last_one])%list in split_at.
    rewrite app_assoc in split_at. apply app_inj_tail in split_at.
    destruct split_at as [whole _]. now apply distinct with (after := after).
Qed.

Lemma fold_Set_add_Distinct (items seen : list value) :
  Distinct seen -> Distinct (fold_left Set_add items seen).
Proof.
  revert seen. induction items as [|v items IH]; intros seen distinct; cbn.
  - exact distinct.
  - apply IH. now apply Set_add_Distinct.
Qed.

Lemma Set_of_Distinct (items : list value) : Distinct (Set_of items).
Proof.
  apply fold_Set_add_Distinct. intros before v after split_at. now destruct before.
Qed.

Lemma fold_Set_add_incl (items seen : list value) (v : value) :
  In v (fold_left Set_add items seen) -> In v seen \/ In v items.
Proof.
  revert seen. induction items as [|x items IH]; intros seen found; cbn in *.
  - now left.
  - destruct (IH _ found) as [old|later]; [|now right; right].
    unfold Set_add in old. destruct (existsb (SameValueZero x) seen); [now left|].
    apply in_app_or in old. destruct old as [old|[same|[]]]; [now left | now right; left].
Qed.

(** Every member of the set is one of the values it was made of. *)
Lemma Set_of_incl (items : list value) (v : value) : In v (Set_of items) -> In v items.
Proof.
  intros found. now destruct (fold_Set_add_incl items [] v found) as [[]|found'].
Qed.

Lemma fold_Set_add_keeps (items seen : list value) (v : value) :
  In v seen -> In v (fold_left Set_add items seen).
Proof.
  revert seen. induction items as [|x items IH]; intros seen found; cbn; [exact found|].
  apply IH. unfold Set_add. destruct (existsb (SameValueZero x) seen); [exact found|].
  apply in_or_app. now left.
Qed.

(** Every value the set was made of is in it, or is the same as a member. *)
Lemma Set_of_covers (items : list value) (v : value) :
  In v items ->
  exists member, In member (Set_of items) /\ (member = v \/ SameValueZero v member = true).
Proof.
  unfold Set_of. generalize (@nil value) as seen.
  induction items as [|x items IH]; intros seen found; [destruct found|].
  destruct found as [->|later]; [|now apply IH].
  cbn. unfold Set_add at 2.
  destruct (existsb (SameValueZero v) seen) eqn:known.
  - apply existsb_exists in known. destruct known as (member & old & same).
    exists member. split; [now apply fold_Set_add_keeps | now right].
  - exists v. split; [|now left].
    apply fold_Set_add_keeps, in_or_app. right. now left.
Qed.

(** ** [prepareResultSummary] *)

(** The records kept for the mean are those whose rating counts, and the
    sum runs over those ratings. *)
Lemma rated_records_ratings (results : list Document) :
  map (fun r => member (field r "ratings") "overallAverage")
      (filter (fun r => ToBoolean (overallAverage_if_any r)) results)
  = counted_ratings results.
Proof.
  unfold counted_ratings.
  induction results as [|r results IH]; cbn [map filter]; [reflexivity|].
  destruct (ToBoolean (overallAverage_if_any r)) eqn:counts; [|exact IH].
  cbn [map]. rewrite IH. f_equal.
  unfold overallAverage_if_any, js_and in *.
  destruct (ToBoolean (field r "ratings")) eqn:rated; [reflexivity|].
  congruence.
Qed.

Lemma fold_left_map {A B C : Type} (f : A -> C -> A) (g : B -> C) (l : list B) (a : A) :
  fold_left (fun acc x => f acc (g x)) l a = fold_left f (map g l) a.
Proof. revert a. induction l as [|x l IH]; intros a; cbn; [reflexivity | apply IH]. Qed.

(** Lines 248 to 287 build the digest. *)
Lemma detailed_summary_digest (results : list Document) :
  detailed_summary results = digest results.
Proof.
  unfold detailed_summary, digest, rating_line, instructors_line, domains_line,
    distinct_values, mean, slice0.
  cbv zeta.
  rewrite (fold_left_map js_add (fun r => member (field r "ratings") "overallAverage")).
  rewrite <- (length_map (fun r => member (field r "ratings") "overallAverage")
                         (filter (fun r => ToBoolean (overallAverage_if_any r)) results)).
  rewrite rated_records_ratings.
  rewrite !if_nonempty.
  destruct (counted_ratings results) as [|rating ratings];
    destruct (Set_of (filter ToBoolean (map (fun r => field r "instructor") results)))
      as [|name names];
    destruct (Set_of (filter ToBoolean (map (fun r => field r "domain") results)))
      as [|domain domains];
    rewrite ?append_assoc, ?append_empty_r; reflexivity.
Qed.

Lemma sum_of_numbers (ratings : list float) (start : float) :
  fold_left js_add (map VNum ratings) (VNum start)
  = VNum (fold_left PrimFloat.add ratings start).
Proof.
  revert start. induction ratings as [|x ratings IH]; intros start; cbn [map fold_left].
  - reflexivity.
  - change (js_add (VNum start) (VNum x)) with (VNum (start + x)). apply IH.
Qed.

(** C6, as amended.  An absent or empty result set yields the fixed
    no-data sentence.  A result set whose first record carries an
    identifier field plus a recognized aggregate-value field, and that has
    at most 200 records, yields the serialization of all its records; so
    does, failing that, one of at most 10 records; any other yields the
    bounded digest.  In particular a non-empty set of at most 200 records
    that each carry those fields yields the serialization of them all. *)
Theorem prepareResultSummary_three_tiers (results : option (list Document)) :
  match results with
  | None | Some [] =>
      prepareResultSummary results = "No data found matching the query criteria."
  | Some (firstResult :: others) =>
      let records := firstResult :: others in
      (if carries_aggregate firstResult && (length records <=? 200)%nat then
         prepareResultSummary results
         = "Complete aggregated results (" ++ string_of_nat (length records)
           ++ " records):" ++ nl ++ stringify (array_of records) 2
       else if (length records <=? 10)%nat then
         prepareResultSummary results = "Complete results: " ++ stringify (array_of records) 2
       else prepareResultSummary results = digest records)
      /\ (each_record_aggregated records = true ->
          prepareResultSummary results
          = "Complete aggregated results (" ++ string_of_nat (length records)
            ++ " records):" ++ nl ++ stringify (array_of records) 2)
  end.
Proof.
  destruct results as [[|firstResult others]|]; try reflexivity.
  cbv zeta. unfold prepareResultSummary, isAggregatedData, each_record_aggregated.
  fold (carries_aggregate firstResult). cbn [forallb].
  split.
  - destruct (carries_aggregate firstResult && (length (firstResult :: others) <=? 200)%nat);
      [reflexivity|].
    destruct (length (firstResult :: others) <=? 10)%nat; [reflexivity|].
    apply detailed_summary_digest.
  - intros each. apply andb_prop in each. destruct each as [carried small].
    apply andb_prop in carried. destruct carried as [first_one _].
    now rewrite first_one, small.
Qed.

(** C7, as amended.  For a result set of more than 10 records that is
    not recognized as aggregated, the summary is the digest: the total
    count; exactly the first 10 records, serialized; the mean, to two
    decimals, of [ratings.overallAverage] over the records where [ratings]
    and it are truthy, when there is such a record (for ratings that are
    numbers: their sum, added from 0 in order, divided by their number);
    the distinct truthy instructors, their number and the first 5 of them,
    then an ellipsis when there are more, when there is one; the distinct
    truthy domains, when there is one. *)
Theorem prepareResultSummary_digest (results : list Document) :
  (10 < length results)%nat ->
  isAggregatedData (Some results) = false ->
  prepareResultSummary (Some results) = digest results
  /\ length (firstn 10 results) = 10%nat
  /\ (forall r, In r results ->
        ToBoolean (overallAverage_if_any r) = true ->
        In (member (field r "ratings") "overallAverage") (counted_ratings results))
  /\ (forall v, In v (counted_ratings results) ->
        ToBoolean v = true
        /\ exists r, In r results /\ ToBoolean (field r "ratings") = true
                     /\ member (field r "ratings") "overallAverage" = v)
  /\ (forall ratings : list float,
        counted_ratings results = map VNum ratings ->
        mean (counted_ratings results)
        = (fold_left PrimFloat.add ratings 0 / float_of_nat (length ratings))%float)
  /\ (forall key,
        Distinct (distinct_values key results)
        /\ (forall v, In v (distinct_values key results) ->
              ToBoolean v = true /\ exists r, In r results /\ field r key = v)
        /\ (forall r, In r results ->
              ToBoolean (field r key) = true ->
              exists member,
                In member (distinct_values key results)
                /\ (member = field r key \/ SameValueZero (field r key) member = true))).
Proof.
  intros large plain. split; [|split; [|split; [|split; [|split]]]].
  - unfold prepareResultSummary. rewrite plain.
    destruct results as [|firstResult others]; [cbn in large; lia|].
    destruct (length (firstResult :: others) <=? 10)%nat eqn:small.
    + apply Nat.leb_le in small. lia.
    + apply detailed_summary_digest.
  - apply firstn_length_le. lia.
  - intros r member_of counts. rewrite <- rated_records_ratings.
    apply (in_map (fun r => member (field r "ratings") "overallAverage")).
    apply filter_In. now split.
  - intros v counted. unfold counted_ratings in counted.
    apply filter_In in counted. destruct counted as [from truthy].
    split; [exact truthy|].
    apply in_map_iff in from. destruct from as (r & read & member_of).
    exists r. split; [exact member_of|].
    unfold overallAverage_if_any, js_and in read.
    destruct (ToBoolean (field r "ratings")) eqn:rated; [now split|].
    congruence.
  - intros ratings numbers. unfold mean. rewrite numbers, sum_of_numbers, length_map.
    reflexivity.
  - intros key. unfold distinct_values. split; [apply Set_of_Distinct|]. split.
    + intros v listed. apply Set_of_incl, filter_In in listed.
      destruct listed as [from truthy]. split; [exact truthy|].
      apply in_map_iff in from. destruct from as (r & read & member_of). now exists r.
    + intros r member_of truthy. apply Set_of_covers, filter_In. split; [|exact truthy].
      now apply (in_map (fun r => field r key)).
Qed.

(** ** [generateQuery] *)

(** Before [initialize], [generateQuery] throws at once: the oracle is not
    called and the state is as it was. *)
Lemma generateQuery_not_initialized (userQuery : string) (s : State) :
  isInitialized (queryGenerator s) = false ->
  generateQuery userQuery s = (inl "Query Generator not initialized", s).
Proof.
  intros fresh. unfold generateQuery, bind, get_queryGenerator. now rewrite fresh.
Qed.

(** After [initialize], the result of [generateQuery] read off the
    oracle's answer. *)
Lemma generateQuery_result (userQuery : string) (s : State) :
  isInitialized (queryGenerator s) = true ->
  fst (generateQuery userQuery s) =
    match fst (chat_completions_create (generateRequest (queryGenerator s) userQuery)
                                       (world s)) with
    | inl unavailable => inl ("Failed to generate MongoDB query: " ++ unavailable)
    | inr [] =>
        inl ("Failed to generate MongoDB query: "
             ++ TypeError_cannot_read "undefined" "message")
    | inr (None :: _) =>
        inl ("Failed to generate MongoDB query: " ++ TypeError_cannot_read "null" "trim")
    | inr (Some text :: _) =>
        match JSON_parse (String_trim text) with
        | inl syntaxError =>
            inl ("Failed to generate MongoDB query: "
                 ++ ("Invalid MongoDB query generated: " ++ syntaxError))
        | inr mongoQuery =>
            if Array_isArray mongoQuery then inr mongoQuery
            else inl ("Failed to generate MongoDB query: "
                      ++ ("Invalid MongoDB query generated: " ++ "Query must be an array"))
        end
    end.
Proof.
  intros ready. unfold generateQuery, bind, try_catch, get_queryGenerator, create.
  rewrite ready. cbn.
  destruct (chat_completions_create _ (world s)) as [[unavailable|response] w]; cbn.
  - reflexivity.
  - destruct response as [|[text|] others]; cbn; try reflexivity.
    destruct (JSON_parse (String_trim text)) as [syntaxError|mongoQuery]; cbn.
    + reflexivity.
    + now destruct (Array_isArray mongoQuery).
Qed.

(** ** [analyzeResults] *)

(** Before [initialize], [analyzeResults] throws at once: the oracle is
    not called and the state is as it was. *)
Lemma analyzeResults_not_initialized (originalQuery : string) (results : list Document)
    (s : State) :
  isInitialized (resultAnalyzer s) = false ->
  analyzeResults originalQuery results s = (inl "Result Analyzer not initialized", s).
Proof.
  intros fresh. unfold analyzeResults, bind, get_resultAnalyzer. now rewrite fresh.
Qed.

(** After [initialize], the result of [analyzeResults] read off the
    oracle's answer. *)
Lemma analyzeResults_result (originalQuery : string) (results : list Document) (s : State) :
  isInitialized (resultAnalyzer s) = true ->
  fst (analyzeResults originalQuery results s) =
    match fst (chat_completions_create
                 (analysisRequest (resultAnalyzer s)
                    (analysisPrompt originalQuery results
                       (prepareResultSummary (Some results))))
                 (world s)) with
    | inl unavailable => inl ("Failed to analyze results: " ++ unavailable)
    | inr [] =>
        inl ("Failed to analyze results: " ++ TypeError_cannot_read "undefined" "message")
    | inr (None :: _) =>
        inl ("Failed to analyze results: " ++ TypeError_cannot_read "null" "trim")
    | inr (Some text :: _) => inr (String_trim text)
    end.
Proof.
  intros ready. unfold analyzeResults, bind, try_catch, get_resultAnalyzer, create.
  rewrite ready. cbn.
  destruct (chat_completions_create _ (world s)) as [[unavailable|response] w]; cbn.
  - reflexivity.
  - now destruct response as [|[text|] others].
Qed.

(** ** [executeQueryWithRetry] *)

(** The loop refines the state machine: with fuel for the turns that are
    left it only appends to the trace, leaves both services alone, and its
    calls and its result are a [Run]. *)
Lemma for_attempts_run (fuel : nat) (originalQuery : string) (maxRetries : Z) :
  forall (attempt : Z) (query : value) (s : State),
    (Z.to_nat (maxRetries - attempt) <= fuel)%nat ->
    let run := for_attempts fuel originalQuery maxRetries attempt query s in
    exists events,
      trace (snd run) = (trace s ++ events)%list
      /\ queryGenerator (snd run) = queryGenerator s
      /\ resultAnalyzer (snd run) = resultAnalyzer s
      /\ Run (queryGenerator s) originalQuery maxRetries attempt query
             (calls events) (fst run).
Proof.
  induction fuel as [|fuel IH]; intros attempt query s enough; cbn [for_attempts].
  - exists []. cbn. rewrite app_nil_r. repeat split. apply Run_nothing. lia.
  - destruct (attempt <? maxRetries)%Z eqn:guard.
    2:{ exists []. cbn. rewrite app_nil_r. repeat split.
        apply Run_nothing. apply Z.ltb_ge in guard. exact guard. }
    apply Z.ltb_lt in guard.
    cbv zeta.
    cbv [bind try_catch console_log console_error emit aggregate_toArray ret throw].
    cbn [world trace queryGenerator resultAnalyzer].
    destruct (collection_aggregate query (world s)) as [[message|results] w].
    + (* the attempt failed *)
      destruct (attempt =? maxRetries - 1)%Z eqn:last_one.
      * apply Z.eqb_eq in last_one.
        eexists. cbn. rewrite <- !app_assoc. repeat split.
        cbn. now apply Run_exhausted.
      * apply Z.eqb_neq in last_one.
        rewrite fixQuery_run.
        cbn [world trace queryGenerator resultAnalyzer fst snd].
        set (request := fixRequest (queryGenerator s) originalQuery message query).
        destruct (chat_completions_create request w) as [answer w'] eqn:asked.
        cbn [fst snd].
        destruct (repaired answer) as [fixError|fixed] eqn:repair.
        -- eexists. cbn [fst snd trace queryGenerator resultAnalyzer].
           rewrite <- !app_assoc. repeat split.
           cbn. apply Run_repair_failed; [lia | exact repair].
        -- match goal with
           | |- context [for_attempts fuel _ _ _ _ ?s2] =>
               destruct (IH (attempt + 1)%Z fixed s2) as (events & grown & same_qg & same_ra & run);
               [lia|]
           end.
           cbn [trace queryGenerator resultAnalyzer] in grown, same_qg, same_ra, run.
           eexists. split; [rewrite grown, <- !app_assoc; reflexivity|].
           repeat split; try assumption.
           cbn. now apply Run_repaired with (fixed := fixed); [lia| |].
    + (* the attempt succeeded *)
      eexists. cbn. rewrite <- !app_assoc. repeat split.
      cbn. now apply Run_success.
Qed.

Lemma aggregate_outcomes_calls (events : list Event) :
  aggregate_outcomes (calls events) = aggregate_outcomes events.
Proof.
  unfold calls, aggregate_outcomes.
  induction events as [|[line|line|pipeline outcome|request outcome] events IH];
    simpl; now rewrite ?IH.
Qed.

Lemma completion_outcomes_calls (events : list Event) :
  completion_outcomes (calls events) = completion_outcomes events.
Proof.
  unfold calls, completion_outcomes.
  induction events as [|[line|line|pipeline outcome|request outcome] events IH];
    simpl; now rewrite ?IH.
Qed.

Lemma aggregate_outcomes_cons (e : Event) (events : list Event) :
  aggregate_outcomes (e :: events)
  = match e with
    | Aggregate _ outcome => outcome :: aggregate_outcomes events
    | _ => aggregate_outcomes events
    end.
Proof. now destruct e. Qed.

Lemma completion_outcomes_cons (e : Event) (events : list Event) :
  completion_outcomes (e :: events)
  = match e with
    | Completion _ answer => answer :: completion_outcomes events
    | _ => completion_outcomes events
    end.
Proof. now destruct e. Qed.

Section Runs.
Variables (this : Service) (originalQuery : string) (maxRetries : Z).

#[local] Ltac read_calls :=
  unfold attempts in *;
  rewrite ?aggregate_outcomes_cons, ?completion_outcomes_cons in *;
  change (aggregate_outcomes []) with (@nil (string + list Document)) in *;
  change (completion_outcomes []) with (@nil (string + ChatResponse)) in *.

(** A run makes at most as many attempts as there are turns left. *)
Lemma Run_attempts_bound attempt query events result :
  Run this originalQuery maxRetries attempt query events result ->
  (Z.of_nat (attempts events) <= Z.max 0 (maxRetries - attempt))%Z.
Proof.
  induction 1; read_calls; cbn [length] in *; lia.
Qed.

(** A run that saw the store answer returns that answer. *)
Lemma Run_success_returned attempt query events result results :
  Run this originalQuery maxRetries attempt query events result ->
  In (inr results) (aggregate_outcomes events) ->
  result = inr (Some results).
Proof.
  induction 1; read_calls; intros found.
  - contradiction.
  - destruct found as [same|[]]. now inversion same.
  - destruct found as [same|[]]. discriminate same.
  - destruct found as [same|[]]. discriminate same.
  - destruct found as [same|found]; [discriminate same | now apply IHRun].
Qed.

(** A run whose attempts all fail and whose repairs all succeed uses every
    turn and ends Exhausted, with the last failure in its message. *)
Lemma Run_exhausts attempt query events result :
  Run this originalQuery maxRetries attempt query events result ->
  (attempt < maxRetries)%Z ->
  Forall failed (aggregate_outcomes events) ->
  Forall (fun answer => succeeded (repaired answer)) (completion_outcomes events) ->
  exists message,
    last (aggregate_outcomes events) (inr []) = inl message
    /\ Z.of_nat (attempts events) = (maxRetries - attempt)%Z
    /\ result = inl ("Database query failed after " ++ string_of_Z maxRetries
                     ++ " attempts: " ++ message).
Proof.
  induction 1; read_calls; intros turns_left all_failed all_repaired.
  - lia.
  - inversion all_failed as [|? ? impossible]. destruct impossible.
  - exists message. repeat split. cbn [length]. lia.
  - inversion all_repaired as [|? ? impossible]; subst.
    rewrite H0 in impossible. destruct impossible.
  - inversion all_failed; subst. inversion all_repaired; subst.
    destruct IHRun as (last_message & is_last & count & ended); try assumption; [lia|].
    exists last_message.
    destruct (aggregate_outcomes rest) as [|outcome outcomes] eqn:outs.
    + discriminate is_last.
    + repeat split; [exact is_last | cbn [length] in *; lia | exact ended].
Qed.

(** A run in which a repair fails ends there, RepairFailed. *)
Lemma Run_repair_failure_last attempt query events result :
  Run this originalQuery maxRetries attempt query events result ->
  forall before request answer after fixError,
    events = (before ++ Completion request answer :: after)%list ->
    repaired answer = inl fixError ->
    result = inl ("Query could not be fixed: " ++ fixError) /\ after = [].
Proof.
  induction 1; intros before request' answer' after fixError' split_at failure.
  - now destruct before.
  - destruct before as [|? [|]]; discriminate split_at.
  - destruct before as [|? [|]]; discriminate split_at.
  - destruct before as [|first [|second before]]; try discriminate split_at.
    + inversion split_at; subst. rewrite H0 in failure. now inversion failure.
    + inversion split_at as [[same rest]]. now destruct before.
  - destruct before as [|first [|second before]]; try discriminate split_at.
    + inversion split_at; subst. rewrite H0 in failure. discriminate failure.
    + inversion split_at; subst. now apply IHRun with (1 := eq_refl).
Qed.

End Runs.

(** The trace only grows, and both services come out as they went in. *)
Lemma executeQueryWithRetry_run (mongoQuery : value) (originalQuery : string)
    (maxRetries : Z) (s : State) :
  let run := executeQueryWithRetry mongoQuery originalQuery maxRetries s in
  exists events,
    trace (snd run) = (trace s ++ events)%list
    /\ queryGenerator (snd run) = queryGenerator s
    /\ resultAnalyzer (snd run) = resultAnalyzer s
    /\ Run (queryGenerator s) originalQuery maxRetries 0 mongoQuery (calls events) (fst run).
Proof. apply for_attempts_run. lia. Qed.

(** The fuel is never what ends the loop: any two amounts above the turns
    left give the same run. *)
Lemma for_attempts_fuel (originalQuery : string) (maxRetries : Z) (fuel fuel' : nat) :
  forall (attempt : Z) (query : value) (s : State),
    (Z.to_nat (maxRetries - attempt) <= fuel)%nat ->
    (Z.to_nat (maxRetries - attempt) <= fuel')%nat ->
    for_attempts fuel originalQuery maxRetries attempt query s
    = for_attempts fuel' originalQuery maxRetries attempt query s.
Proof.
  revert fuel'. induction fuel as [|fuel IH]; intros [|fuel'] attempt query s enough enough';
    cbn [for_attempts]; try reflexivity.
  - destruct (attempt <? maxRetries)%Z eqn:guard; [|reflexivity].
    apply Z.ltb_lt in guard. lia.
  - destruct (attempt <? maxRetries)%Z eqn:guard; [|reflexivity].
    apply Z.ltb_lt in guard. lia.
  - destruct (attempt <? maxRetries)%Z eqn:guard; [|reflexivity].
    apply Z.ltb_lt in guard.
    match goal with |- bind ?body _ s = bind ?body _ s => generalize body; intro turn end.
    unfold bind. destruct (turn s) as [[error|[results|fixed]] s']; try reflexivity.
    apply IH; lia.
Qed.

(** C1.  With [maxRetries = N >= 1], [executeQueryWithRetry] makes at most
    [N] execution attempts against the store.  If every attempt fails and
    every repair succeeds, it makes exactly [N] of them and throws the
    QueryExecutionError whose message holds [N] and the message of the last
    failure.  If an attempt succeeds, it returns the result set of that
    attempt. *)
Theorem executeQueryWithRetry_at_most_maxRetries_attempts
    (mongoQuery : value) (originalQuery : string) (maxRetries : Z) (s : State) :
  (1 <= maxRetries)%Z ->
  let run := executeQueryWithRetry mongoQuery originalQuery maxRetries s in
  exists events,
    trace (snd run) = (trace s ++ events)%list
    /\ (Z.of_nat (attempts events) <= maxRetries)%Z
    /\ (Forall failed (aggregate_outcomes events) ->
        Forall (fun answer => succeeded (repaired answer)) (completion_outcomes events) ->
        exists message,
          last (aggregate_outcomes events) (inr []) = inl message
          /\ Z.of_nat (attempts events) = maxRetries
          /\ fst run = inl ("Database query failed after " ++ string_of_Z maxRetries
                            ++ " attempts: " ++ message)
          /\ QueryExecutionError ("Database query failed after " ++ string_of_Z maxRetries
                                  ++ " attempts: " ++ message) = true)
    /\ (forall results,
          In (inr results) (aggregate_outcomes events) -> fst run = inr (Some results)).
Proof.
  intros at_least_one run.
  destruct (executeQueryWithRetry_run mongoQuery originalQuery maxRetries s)
    as (events & grown & _ & _ & shape).
  fold run in grown, shape.
  exists events. split; [exact grown|]. split; [|split].
  - apply Run_attempts_bound in shape.
    unfold attempts in *. rewrite aggregate_outcomes_calls in shape. lia.
  - intros all_failed all_repaired.
    destruct (Run_exhausts _ _ _ _ _ _ _ shape) as (message & is_last & count & ended).
    + lia.
    + now rewrite aggregate_outcomes_calls.
    + now rewrite completion_outcomes_calls.
    + exists message. unfold attempts in *. rewrite aggregate_outcomes_calls in *.
      repeat split; [exact is_last | lia | exact ended |].
      unfold QueryExecutionError. apply prefix_app.
  - intros results found.
    apply (Run_success_returned _ _ _ _ _ _ _ _ shape).
    now rewrite aggregate_outcomes_calls.
Qed.

(** C4.  When a repair raised during the loop fails (the oracle's answer
    makes [fixQuery] throw [fixError]), [executeQueryWithRetry] throws the
    QueryRepairError that wraps [fixError], whatever [maxRetries] is, and
    what follows the failed repair in the trace holds no execution attempt
    and no further call to the oracle. *)
Theorem executeQueryWithRetry_repair_failure_is_terminal
    (mongoQuery : value) (originalQuery : string) (maxRetries : Z) (s : State)
    (before after : list Event) (request : ChatRequest)
    (answer : string + ChatResponse) (fixError : string) :
  let run := executeQueryWithRetry mongoQuery originalQuery maxRetries s in
  trace (snd run) = (trace s ++ before ++ Completion request answer :: after)%list ->
  repaired answer = inl fixError ->
  fst run = inl ("Query could not be fixed: " ++ fixError)
  /\ QueryRepairError ("Query could not be fixed: " ++ fixError) = true
  /\ attempts after = 0%nat
  /\ completion_outcomes after = [].
Proof.
  intros run grown failure.
  destruct (executeQueryWithRetry_run mongoQuery originalQuery maxRetries s)
    as (events & grown' & _ & _ & shape).
  fold run in grown', shape.
  rewrite grown in grown'. apply app_inv_head in grown'. subst events.
  rewrite calls_app in shape. cbn [calls filter is_call] in shape.
  fold (calls after) in shape.
  destruct (Run_repair_failure_last _ _ _ _ _ _ _ shape _ _ _ _ _ eq_refl failure)
    as (ended & nothing_after).
  split; [exact ended|]. split; [apply prefix_app|].
  unfold attempts.
  rewrite <- (aggregate_outcomes_calls after), <- (completion_outcomes_calls after).
  now rewrite nothing_after.
Qed.

(** C10.  With [maxRetries <= 0], [executeQueryWithRetry] returns
    [undefined] and leaves the state as it was: no execution attempt, no
    repair call, no console line, no error. *)
Theorem executeQueryWithRetry_without_budget
    (mongoQuery : value) (originalQuery : string) (maxRetries : Z) (s : State) :
  (maxRetries <= 0)%Z ->
  executeQueryWithRetry mongoQuery originalQuery maxRetries s = (inr None, s).
Proof.
  intros none. unfold executeQueryWithRetry. cbn [for_attempts].
  destruct (0 <? maxRetries)%Z eqn:guard; [|reflexivity].
  apply Z.ltb_lt in guard. lia.
Qed.

(** C9.  [initialize] never throws, and a second [initialize] of the
    Query Translator or of the Result Narrator returns without an error and
    leaves the whole state (flag, context, console, world) as the first
    call left it, with the flag set. *)
Theorem initialize_idempotent (s : State) :
  let translator := snd (QueryGenerator_initialize s) in
  let narrator := snd (ResultAnalyzer_initialize s) in
  (fst (QueryGenerator_initialize s) = inr tt
   /\ QueryGenerator_initialize translator = (inr tt, translator)
   /\ isInitialized (queryGenerator translator) = true)
  /\ (fst (ResultAnalyzer_initialize s) = inr tt
      /\ ResultAnalyzer_initialize narrator = (inr tt, narrator)
      /\ isInitialized (resultAnalyzer narrator) = true).
Proof.
  unfold QueryGenerator_initialize, ResultAnalyzer_initialize, bind,
    get_queryGenerator, get_resultAnalyzer, set_queryGenerator, set_resultAnalyzer,
    console_log, emit, ret.
  split.
  - destruct (isInitialized (queryGenerator s)) eqn:done; cbn; now rewrite ?done.
  - destruct (isInitialized (resultAnalyzer s)) eqn:done; cbn; now rewrite ?done.
Qed.

(** C5, as amended.  Once the translator is initialized, [generateQuery]
    returns only arrays and throws only TranslationErrors: text that is not
    JSON, and JSON that is not an array, make it throw; an array, the empty
    one too, is returned as it is, whatever its elements are. *)
Theorem generateQuery_array_or_TranslationError (userQuery : string) (s : State) :
  isInitialized (queryGenerator s) = true ->
  let answer := fst (chat_completions_create
                       (generateRequest (queryGenerator s) userQuery) (world s)) in
  let result := fst (generateQuery userQuery s) in
  (forall mongoQuery, result = inr mongoQuery -> Array_isArray mongoQuery = true)
  /\ (forall message, result = inl message -> TranslationError message = true)
  /\ (forall text others syntaxError,
        answer = inr (Some text :: others) ->
        JSON_parse (String_trim text) = inl syntaxError ->
        exists message, result = inl message)
  /\ (forall text others parsed,
        answer = inr (Some text :: others) ->
        JSON_parse (String_trim text) = inr parsed ->
        Array_isArray parsed = false ->
        exists message, result = inl message)
  /\ (forall text others stages,
        answer = inr (Some text :: others) ->
        JSON_parse (String_trim text) = inr (VArr stages) ->
        result = inr (VArr stages)).
Proof.
  intros ready answer result.
  pose proof (generateQuery_result userQuery s ready) as read.
  fold answer result in read.
  assert (wrapped : forall cause,
             TranslationError ("Failed to generate MongoDB query: " ++ cause) = true).
  { intros cause. unfold TranslationError. now rewrite prefix_app. }
  repeat split.
  - intros mongoQuery returned. rewrite returned in read.
    destruct answer as [unavailable|[|[text|] others]]; try discriminate read.
    destruct (JSON_parse (String_trim text)) as [syntaxError|parsed]; try discriminate read.
    destruct (Array_isArray parsed) eqn:is_array; [|discriminate read].
    now inversion read; subst.
  - intros message thrown. rewrite thrown in read.
    destruct answer as [unavailable|[|[text|] others]];
      [| | destruct (JSON_parse (String_trim text)) as [syntaxError|parsed];
           [|destruct (Array_isArray parsed); [discriminate read|]] |];
      match type of read with
      | inl _ = inl ?thrown => assert (message = thrown) as -> by congruence
      end; apply wrapped.
  - intros text others syntaxError answered not_json.
    rewrite read, answered, not_json. eauto.
  - intros text others parsed answered json not_array.
    rewrite read, answered, json, not_array. eauto.
  - intros text others stages answered json.
    now rewrite read, answered, json.
Qed.

(** C8, as amended.  Once the narrator is initialized, [analyzeResults]
    throws an AnalysisError when the oracle is unavailable, and when its
    response has no choice or a [null] content; when the response carries
    a text, empty and blank texts included, it returns that text trimmed.
    Every error it throws is an AnalysisError. *)
Theorem analyzeResults_text_or_AnalysisError (originalQuery : string)
    (results : list Document) (s : State) :
  isInitialized (resultAnalyzer s) = true ->
  let answer := fst (chat_completions_create
                       (analysisRequest (resultAnalyzer s)
                          (analysisPrompt originalQuery results
                             (prepareResultSummary (Some results))))
                       (world s)) in
  let result := fst (analyzeResults originalQuery results s) in
  (forall unavailable,
      answer = inl unavailable ->
      result = inl ("Failed to analyze results: " ++ unavailable))
  /\ (answer = inr [] -> exists message, result = inl message)
  /\ (forall others, answer = inr (None :: others) -> exists message, result = inl message)
  /\ (forall text others,
        answer = inr (Some text :: others) -> result = inr (String_trim text))
  /\ (forall message, result = inl message -> AnalysisError message = true).
Proof.
  intros ready answer result.
  pose proof (analyzeResults_result originalQuery results s ready) as read.
  fold answer result in read.
  repeat split.
  - intros unavailable down. now rewrite read, down.
  - intros empty. rewrite read, empty. eauto.
  - intros others empty. rewrite read, empty. eauto.
  - intros text others answered. now rewrite read, answered.
  - intros message thrown. rewrite thrown in read.
    unfold AnalysisError.
    destruct answer as [unavailable|[|[text|] others]]; try discriminate read;
      match type of read with
      | inl _ = inl ?thrown => assert (message = thrown) as -> by congruence
      end; apply prefix_app.
Qed.

End Properties.

(* ================================================================== *)
(** * The properties at concrete inputs *)
(* ================================================================== *)

Section Concrete.
Import Reference Scripted Examples.

(** The summary of eleven plain sessions. *)
Example summary_of_sessions :
  prepareResultSummary (Some sessions)
  = "Data overview:" ++ nl
    ++ "- Total records: 11" ++ nl
    ++ "- Sample data (first 10 records): " ++ stringify (array_of (firstn 10 sessions)) 2 ++ nl
    ++ "- Average rating across results: 4.50" ++ nl
    ++ "- Unique instructors: 1 (Rishi Bollu)" ++ nl
    ++ "- Domains covered: SRE" ++ nl.
Proof. vm_compute. reflexivity. Qed.

(** Six instructors: five are listed, then the ellipsis; the mean runs over
    the eleven rated sessions. *)
Example summary_of_varied :
  prepareResultSummary (Some varied)
  = "Data overview:" ++ nl
    ++ "- Total records: 12" ++ nl
    ++ "- Sample data (first 10 records): " ++ stringify (array_of (firstn 10 varied)) 2 ++ nl
    ++ "- Average rating across results: 3.77" ++ nl
    ++ "- Unique instructors: 6 (A, B, C, D, E...)" ++ nl
    ++ "- Domains covered: Cloud, SRE" ++ nl.
Proof. vm_compute. reflexivity. Qed.

(** Five aggregated records are all serialized. *)
Example summary_of_averages :
  prepareResultSummary (Some averages)
  = "Complete aggregated results (5 records):" ++ nl ++ stringify (array_of averages) 2.
Proof. vm_compute. reflexivity. Qed.

(** From the question to the analysis: the query is generated, runs at the
    first attempt, and the narrator is shown the one record in full. *)
Example question_to_analysis :
  let translated := generateQuery question (initialized all_well) in
  let executed :=
    match fst translated with
    | inr mongoQuery => executeQueryWithRetry mongoQuery question 2 (snd translated)
    | inl message => (inl message, snd translated)
    end in
  let analyzed :=
    match fst executed with
    | inr (Some results) => analyzeResults question results (snd executed)
    | _ => (inl "no results", snd executed)
    end in
  fst translated
  = inr (VArr [VObj [("$match", VObj [("instructor", VStr "Rishi Bollu")])];
               VObj [("$group",
                      VObj [("_id", VNull);
                            ("avgRating", VObj [("$avg", VStr "$ratings.overallAverage")])])]])
  /\ fst executed = inr (Some [[("_id", VNull); ("avgRating", VNum 4.3)]])
  /\ attempts (trace (snd executed)) = 1%nat
  /\ fst analyzed = inr "Rishi Bollu averages 4.3 out of 5."
  /\ prepareResultSummary (Some [[("_id", VNull); ("avgRating", VNum 4.3)]])
     = "Complete aggregated results (1 records):" ++ nl
       ++ "[" ++ nl
       ++ "  {" ++ nl
       ++ "    " ++ dq ++ "_id" ++ dq ++ ": null," ++ nl
       ++ "    " ++ dq ++ "avgRating" ++ dq ++ ": 4.3" ++ nl
       ++ "  }" ++ nl
       ++ "]".
Proof. vm_compute. repeat split. Qed.

(** ** The retry loop *)

(** Two turns, both attempts fail, the repair in between succeeds. *)
Example two_failed_attempts :
  let run := executeQueryWithRetry pipeline question 2 (initialized store_fails_twice) in
  fst run = inl "Database query failed after 2 attempts: pipeline is empty"
  /\ aggregate_outcomes (trace (snd run))
     = [inl "unknown operator: $avgg"; inl "pipeline is empty"]
  /\ map (fun e => match e with Aggregate query _ => query | _ => VNull end)
         (calls (trace (snd run)))
     = [pipeline; VNull; VArr []].
Proof. vm_compute. repeat split. Qed.

Lemma executeQueryWithRetry_at_most_maxRetries_attempts_witness :
  let s := initialized store_fails_twice in
  let run := executeQueryWithRetry pipeline question 2 s in
  (1 <= 2)%Z
  /\ (Z.of_nat (attempts (skipn (length (trace s)) (trace (snd run)))) <= 2)%Z
  /\ Z.of_nat (attempts (skipn (length (trace s)) (trace (snd run)))) = 2%Z
  /\ fst run = inl "Database query failed after 2 attempts: pipeline is empty".
Proof.
  cbv zeta. split; [lia|].
  destruct (executeQueryWithRetry_at_most_maxRetries_attempts
              pipeline question 2 (initialized store_fails_twice) ltac:(lia))
    as (events & grown & bound & exhausted & _).
  set (s := initialized store_fails_twice) in *.
  set (run := executeQueryWithRetry pipeline question 2 s) in *.
  assert (read : trace (snd run)
                 = (trace s ++ skipn (length (trace s)) (trace (snd run)))%list)
    by (vm_compute; reflexivity).
  rewrite read in grown at 1. apply app_inv_head in grown. rewrite <- grown in *.
  split; [exact bound|].
  destruct exhausted as (message & is_last & count & ended & _).
  - vm_compute. repeat constructor.
  - assert (answers : completion_outcomes (skipn (length (trace s)) (trace (snd run)))
                      = [inr [Some "[]"]]) by (vm_compute; reflexivity).
    rewrite answers. constructor; [|constructor]. vm_compute. exact I.
  - split; [exact count|].
    vm_compute in is_last. injection is_last as <-. exact ended.
Defined.

Lemma executeQueryWithRetry_repair_failure_is_terminal_witness :
  let s := initialized oracle_down in
  let run := executeQueryWithRetry pipeline question 3 s in
  let request := fixRequest (queryGenerator s) question "unknown operator: $avgg" pipeline in
  let before :=
    [Console_log "🔄 Executing query (attempt 1/3)";
     Aggregate pipeline (inl "unknown operator: $avgg");
     Console_error "❌ Query execution failed (attempt 1): unknown operator: $avgg";
     Console_log "🔄 Attempting to fix query with ChatGPT..."] in
  let after :=
    [Console_error "❌ Failed to fix query: Failed to fix query: Connection error."] in
  trace (snd run)
  = (trace s ++ before ++ Completion request (inl "Connection error.") :: after)%list
  /\ repaired (inl "Connection error.") = inl "Failed to fix query: Connection error."
  /\ fst run = inl "Query could not be fixed: Failed to fix query: Connection error."
  /\ QueryRepairError "Query could not be fixed: Failed to fix query: Connection error." = true
  /\ attempts after = 0%nat
  /\ completion_outcomes after = [].
Proof.
  cbv zeta.
  assert (grown :
    trace (snd (executeQueryWithRetry pipeline question 3 (initialized oracle_down)))
    = (trace (initialized oracle_down)
       ++ [Console_log "🔄 Executing query (attempt 1/3)";
           Aggregate pipeline (inl "unknown operator: $avgg");
           Console_error "❌ Query execution failed (attempt 1): unknown operator: $avgg";
           Console_log "🔄 Attempting to fix query with ChatGPT..."]
       ++ Completion (fixRequest (queryGenerator (initialized oracle_down)) question
                        "unknown operator: $avgg" pipeline)
                     (inl "Connection error.")
          :: [Console_error "❌ Failed to fix query: Failed to fix query: Connection error."])%list)
    by (vm_compute; reflexivity).
  split; [exact grown|]. split; [reflexivity|].
  exact (executeQueryWithRetry_repair_failure_is_terminal
           pipeline question 3 (initialized oracle_down) _ _ _ _ _ grown eq_refl).
Defined.

Lemma executeQueryWithRetry_without_budget_witness :
  (0 <= 0)%Z
  /\ executeQueryWithRetry pipeline question 0 (initialized store_fails_twice)
     = (inr None, initialized store_fails_twice).
Proof.
  split; [lia|].
  apply (executeQueryWithRetry_without_budget
           pipeline question 0 (initialized store_fails_twice)).
  lia.
Defined.

(** ** The translator *)

(** C2.  The oracle answers [{}], valid JSON that is not an array:
    [fixQuery] returns the object, where [generateQuery] on the same answer
    throws a TranslationError. *)
Theorem fixQuery_returns_a_non_array :
  let s := initialized (oracle_says "{}") in
  fst (fixQuery question "unknown operator: $avgg" pipeline s) = inr (VObj [])
  /\ Array_isArray (VObj []) = false
  /\ fst (generateQuery question s)
     = inl ("Failed to generate MongoDB query: "
            ++ "Invalid MongoDB query generated: Query must be an array")
  /\ TranslationError ("Failed to generate MongoDB query: "
                       ++ "Invalid MongoDB query generated: Query must be an array") = true.
Proof. vm_compute. repeat split. Qed.

(** C3.  Before any [initialize], [generateQuery] and [analyzeResults]
    throw a NotInitializedError and leave the state as it was, but
    [fixQuery] calls the oracle, with [null] for the system context, and
    returns what the oracle's answer parses to. *)
Theorem fixQuery_runs_before_initialize :
  let s := loaded (oracle_says "[]") in
  let repair := fixQuery question "unknown operator: $avgg" pipeline s in
  isInitialized (queryGenerator s) = false
  /\ generateQuery question s = (inl "Query Generator not initialized", s)
  /\ NotInitializedError "Query Generator not initialized" = true
  /\ analyzeResults question [] s = (inl "Result Analyzer not initialized", s)
  /\ NotInitializedError "Result Analyzer not initialized" = true
  /\ fst repair = inr (VArr [])
  /\ calls (trace (snd repair))
     = [Completion (fixRequest new_Service question "unknown operator: $avgg" pipeline)
                   (inr [Some "[]"])]
  /\ map content (messages (fixRequest new_Service question "unknown operator: $avgg" pipeline))
     = [None; Some (fixPrompt question "unknown operator: $avgg" pipeline)].
Proof. vm_compute. repeat split. Qed.

(** The oracle answers [[1]]: [generateQuery] returns the array, whose
    element is no stage object. *)
Lemma generateQuery_returns_a_non_stage :
  let s := initialized (oracle_says "[1]") in
  isInitialized (queryGenerator s) = true
  /\ fst (generateQuery question s) = inr (VArr [VNum 1])
  /\ generateQuery_as_described (fst (generateQuery question s)) = false.
Proof. vm_compute. repeat split. Qed.

Lemma generateQuery_array_or_TranslationError_witness :
  let s := initialized (oracle_says "[1]") in
  isInitialized (queryGenerator s) = true
  /\ (forall mongoQuery,
        fst (generateQuery question s) = inr mongoQuery -> Array_isArray mongoQuery = true)
  /\ (forall message,
        fst (generateQuery question s) = inl message -> TranslationError message = true).
Proof.
  cbv zeta. split; [reflexivity|].
  destruct (generateQuery_array_or_TranslationError
              question (initialized (oracle_says "[1]")) eq_refl)
    as (arrays & errors & _).
  split; [exact arrays | exact errors].
Defined.

(** ** The narrator *)

(** The oracle answers with the empty text: [analyzeResults] returns it. *)
Lemma analyzeResults_returns_empty_text :
  let s := initialized (oracle_says "") in
  fst (analyzeResults question [] s) = inr ""
  /\ fst (analyzeResults question [] (initialized (oracle_says "   "))) = inr "".
Proof. vm_compute. split; reflexivity. Qed.

Lemma analyzeResults_text_or_AnalysisError_witness :
  let s := initialized (oracle_says "") in
  isInitialized (resultAnalyzer s) = true
  /\ (forall text others,
        fst (chat_completions_create
               (analysisRequest (resultAnalyzer s)
                  (analysisPrompt question [] (prepareResultSummary (Some []))))
               (world s)) = inr (Some text :: others) ->
        fst (analyzeResults question [] s) = inr (String_trim text))
  /\ (forall message,
        fst (analyzeResults question [] s) = inl message -> AnalysisError message = true).
Proof.
  cbv zeta. split; [reflexivity|].
  destruct (analyzeResults_text_or_AnalysisError
              question [] (initialized (oracle_says "")) eq_refl)
    as (_ & _ & _ & texts & errors).
  split; [exact texts | exact errors].
Defined.

(** The first record looks aggregated, the ten others do not: the summary
    is the full serialization, not the digest. *)
Lemma prepareResultSummary_trusts_first_record :
  each_record_aggregated mixed = false
  /\ (length mixed <=? 10)%nat = false
  /\ prepareResultSummary (Some mixed)
     = "Complete aggregated results (11 records):" ++ nl ++ stringify (array_of mixed) 2
  /\ prepareResultSummary (Some mixed) <> digest mixed.
Proof.
  split; [reflexivity|]. split; [reflexivity|]. split; [vm_compute; reflexivity|].
  vm_compute. discriminate.
Qed.

(** Every record has the numeric rating field, with value 0: the digest
    has no mean. *)
Lemma prepareResultSummary_skips_zero_ratings :
  (10 <? length zero_rated)%nat = true
  /\ isAggregatedData (Some zero_rated) = false
  /\ forallb has_numeric_rating zero_rated = true
  /\ prepareResultSummary (Some zero_rated)
     = "Data overview:" ++ nl
       ++ "- Total records: 11" ++ nl
       ++ "- Sample data (first 10 records): "
       ++ stringify (array_of (firstn 10 zero_rated)) 2 ++ nl.
Proof. vm_compute. repeat split. Qed.

Lemma prepareResultSummary_digest_witness :
  (10 < length sessions)%nat
  /\ isAggregatedData (Some sessions) = false
  /\ prepareResultSummary (Some sessions) = digest sessions
  /\ length (firstn 10 sessions) = 10%nat
  /\ mean (counted_ratings sessions)
     = (fold_left PrimFloat.add (repeat 4.5%float 11) 0 / float_of_nat 11)%float
  /\ Distinct (distinct_values "instructor" sessions).
Proof.
  assert (large : (10 < length sessions)%nat) by (cbn; lia).
  split; [exact large|]. split; [reflexivity|].
  destruct (prepareResultSummary_digest sessions large eq_refl)
    as (summary & sample & _ & _ & numbers & distinct).
  split; [exact summary|]. split; [exact sample|].
  split; [exact (numbers (repeat 4.5%float 11) eq_refl) | exact (proj1 (distinct "instructor"))].
Defined.

End Concrete.

(* ================================================================== *)
(** * More properties of the pipeline *)
(* ================================================================== *)

Section Pipeline.
Context {rt : Runtime} {env : Collaborators}.

(** ** How the queries flow through the retry loop *)

Lemma Run_query_flow this originalQuery maxRetries attempt query events result :
  Run this originalQuery maxRetries attempt query events result ->
  (forall pipeline outcome rest,
      events = Aggregate pipeline outcome :: rest -> pipeline = query)
  /\ (forall before pipeline outcome request answer after,
        events = (before ++ Aggregate pipeline outcome
                         :: Completion request answer :: after)%list ->
        exists message,
          outcome = inl message
          /\ request = fixRequest this originalQuery message pipeline)
  /\ (forall before request answer pipeline outcome after,
        events = (before ++ Completion request answer
                         :: Aggregate pipeline outcome :: after)%list ->
        repaired answer = inr pipeline).
Proof.
  induction 1 as [attempt query over
                 |attempt query results turn
                 |attempt query message last_turn
                 |attempt query message answer fixError turn failure
                 |attempt query message answer fixed rest result turn repair later IH].
  - repeat split; intros; try discriminate; now destruct before.
  - repeat split.
    + intros pipeline outcome rest same. now inversion same.
    + intros [|? [|]] *; intros same; discriminate same.
    + intros [|? [|]] *; intros same; discriminate same.
  - repeat split.
    + intros pipeline outcome rest same. now inversion same.
    + intros [|? [|]] *; intros same; discriminate same.
    + intros [|? [|]] *; intros same; discriminate same.
  - repeat split.
    + intros pipeline outcome rest same. now inversion same.
    + intros [|first [|second before]] *; intros same; try discriminate same.
      * inversion same; subst. now exists message.
      * inversion same as [[one two]]. now destruct before.
    + intros [|first [|second before]] *; intros same; try discriminate same.
      inversion same as [[one two]]. now destruct before.
  - destruct IH as (first_query & asked & executed). repeat split.
    + intros pipeline outcome rest' same. now inversion same.
    + intros [|first [|second before]] *; intros same; try discriminate same.
      * inversion same; subst. now exists message.
      * inversion same as [[one two three]]. now apply asked with (1 := three).
    + intros [|first [|second before]] *; intros same; try discriminate same.
      * inversion same as [[one two three]]. subst.
        now rewrite (first_query _ _ _ eq_refl).
      * inversion same as [[one two three]]. now apply executed with (1 := three).
Qed.

(** The first attempt runs the query it was given; a repair is asked with
    the query that just failed and the message of its failure; the attempt
    after a repair runs the query that repair returned. *)
Theorem executeQueryWithRetry_runs_the_repaired_query
    (mongoQuery : value) (originalQuery : string) (maxRetries : Z) (s : State) :
  let run := executeQueryWithRetry mongoQuery originalQuery maxRetries s in
  exists events,
    trace (snd run) = (trace s ++ events)%list
    /\ (forall pipeline outcome rest,
          calls events = Aggregate pipeline outcome :: rest -> pipeline = mongoQuery)
    /\ (forall before pipeline outcome request answer after,
          calls events = (before ++ Aggregate pipeline outcome
                                 :: Completion request answer :: after)%list ->
          exists message,
            outcome = inl message
            /\ request = fixRequest (queryGenerator s) originalQuery message pipeline)
    /\ (forall before request answer pipeline outcome after,
          calls events = (before ++ Completion request answer
                                 :: Aggregate pipeline outcome :: after)%list ->
          repaired answer = inr pipeline).
Proof.
  intros run.
  destruct (executeQueryWithRetry_run mongoQuery originalQuery maxRetries s)
    as (events & grown & _ & _ & shape).
  exists events. split; [exact grown|].
  exact (Run_query_flow _ _ _ _ _ _ _ shape).
Qed.

(** ** How many repairs *)

Lemma Run_repairs_bound this originalQuery maxRetries attempt query events result :
  Run this originalQuery maxRetries attempt query events result ->
  (Z.of_nat (length (completion_outcomes events)) <= Z.max 0 (maxRetries - attempt - 1))%Z
  /\ (length (completion_outcomes events) <= attempts events)%nat.
Proof.
  induction 1; unfold attempts in *;
    rewrite ?aggregate_outcomes_cons, ?completion_outcomes_cons in *;
    change (aggregate_outcomes []) with (@nil (string + list Document)) in *;
    change (completion_outcomes []) with (@nil (string + ChatResponse)) in *;
    cbn [length] in *; lia.
Qed.

(** A run asks the oracle for at most [maxRetries - 1] repairs, and never
    for more repairs than it made attempts. *)
Theorem executeQueryWithRetry_repairs_bounded
    (mongoQuery : value) (originalQuery : string) (maxRetries : Z) (s : State) :
  let run := executeQueryWithRetry mongoQuery originalQuery maxRetries s in
  exists events,
    trace (snd run) = (trace s ++ events)%list
    /\ (Z.of_nat (length (completion_outcomes events)) <= Z.max 0 (maxRetries - 1))%Z
    /\ (length (completion_outcomes events) <= attempts events)%nat.
Proof.
  intros run.
  destruct (executeQueryWithRetry_run mongoQuery originalQuery maxRetries s)
    as (events & grown & _ & _ & shape).
  exists events. split; [exact grown|].
  apply Run_repairs_bound in shape. unfold attempts in *.
  rewrite completion_outcomes_calls, aggregate_outcomes_calls in shape. lia.
Qed.

(** ** How a run ends *)

Lemma Run_ends this originalQuery maxRetries attempt query events result :
  Run this originalQuery maxRetries attempt query events result ->
  (attempt < maxRetries)%Z ->
  match result with
  | inr None => False
  | inr (Some results) => last (aggregate_outcomes events) (inl "") = inr results
  | inl message =>
      (QueryExecutionError message = true
       /\ exists cause, last (aggregate_outcomes events) (inr []) = inl cause)
      \/ (QueryRepairError message = true
          /\ exists fixError,
               option_map repaired (last (map Some (completion_outcomes events)) None)
               = Some (inl fixError)
               /\ message = "Query could not be fixed: " ++ fixError)
  end.
Proof.
  induction 1; intros turns_left;
    rewrite ?aggregate_outcomes_cons, ?completion_outcomes_cons;
    change (aggregate_outcomes []) with (@nil (string + list Document));
    change (completion_outcomes []) with (@nil (string + ChatResponse)).
  - lia.
  - reflexivity.
  - left. split; [apply prefix_app | now exists message].
  - right. split; [apply prefix_app|]. exists fixError. cbn. now rewrite H0.
  - assert (later : (attempt + 1 < maxRetries)%Z) by lia.
    specialize (IHRun later).
    assert (some_attempt : aggregate_outcomes rest <> []).
    { inversion H1; rewrite ?aggregate_outcomes_cons; try discriminate. lia. }
    destruct (aggregate_outcomes rest) as [|outcome outcomes] eqn:outs;
      [now destruct some_attempt|].
    destruct result as [thrown|[results|]]; [|exact IHRun|exact IHRun].
    destruct IHRun as [exhausted|(kind & fixError & read & told)]; [now left|].
    right. split; [exact kind|]. exists fixError. split; [|exact told].
    cbn [map]. destruct (completion_outcomes rest) as [|next others] eqn:asks.
    + discriminate read.
    + exact read.
Qed.

(** With [maxRetries >= 1] the function never returns [undefined]: it
    returns the result set of its last attempt, which succeeded, or throws
    a QueryExecutionError after a last attempt that failed, or throws the
    QueryRepairError that wraps the failure of its last repair. *)
Theorem executeQueryWithRetry_returns_or_throws
    (mongoQuery : value) (originalQuery : string) (maxRetries : Z) (s : State) :
  (1 <= maxRetries)%Z ->
  let run := executeQueryWithRetry mongoQuery originalQuery maxRetries s in
  exists events,
    trace (snd run) = (trace s ++ events)%list
    /\ fst run <> inr None
    /\ (forall results,
          fst run = inr (Some results) ->
          last (aggregate_outcomes events) (inl "") = inr results)
    /\ (forall message,
          fst run = inl message ->
          (QueryExecutionError message = true
           /\ exists cause, last (aggregate_outcomes events) (inr []) = inl cause)
          \/ (QueryRepairError message = true
              /\ exists fixError,
                   option_map repaired (last (map Some (completion_outcomes events)) None)
                   = Some (inl fixError)
                   /\ message = "Query could not be fixed: " ++ fixError)).
Proof.
  intros at_least_one run.
  destruct (executeQueryWithRetry_run mongoQuery originalQuery maxRetries s)
    as (events & grown & _ & _ & shape).
  fold run in grown, shape.
  exists events. split; [exact grown|].
  apply Run_ends in shape; [|lia].
  rewrite aggregate_outcomes_calls, completion_outcomes_calls in shape.
  destruct (fst run) as [message|[results|]]; [| |destruct shape].
  - split; [discriminate|]. split; [discriminate|].
    intros thrown same. now inversion same; subst.
  - split; [discriminate|]. split; [|discriminate].
    intros returned same. now inversion same; subst.
Qed.

(** ** What the translator and the narrator touch *)

Lemma generateQuery_frame (userQuery : string) (s : State) :
  let run := generateQuery userQuery s in
  exists events,
    trace (snd run) = (trace s ++ events)%list
    /\ queryGenerator (snd run) = queryGenerator s
    /\ resultAnalyzer (snd run) = resultAnalyzer s
    /\ aggregate_outcomes events = []
    /\ length (completion_outcomes events)
       = (if isInitialized (queryGenerator s) then 1 else 0)%nat.
Proof.
  unfold generateQuery, bind, try_catch, get_queryGenerator, create.
  destruct (isInitialized (queryGenerator s)); cbn.
  2:{ exists []. now rewrite app_nil_r. }
  destruct (chat_completions_create _ (world s)) as [[unavailable|response] w]; cbn.
  - eexists. rewrite <- !app_assoc. now repeat split.
  - destruct response as [|[text|] others]; cbn;
      try (eexists; rewrite <- !app_assoc; now repeat split).
    destruct (JSON_parse (String_trim text)) as [syntaxError|mongoQuery]; cbn;
      [eexists; rewrite <- !app_assoc; now repeat split|].
    destruct (Array_isArray mongoQuery); cbn;
      eexists; rewrite <- !app_assoc; now repeat split.
Qed.

Lemma fixQuery_frame (originalQuery errorMessage : string) (failedQuery : value)
    (s : State) :
  let run := fixQuery originalQuery errorMessage failedQuery s in
  exists events,
    trace (snd run) = (trace s ++ events)%list
    /\ queryGenerator (snd run) = queryGenerator s
    /\ resultAnalyzer (snd run) = resultAnalyzer s
    /\ aggregate_outcomes events = []
    /\ length (completion_outcomes events) = 1%nat.
Proof.
  cbv zeta. rewrite fixQuery_run. cbn [fst snd trace queryGenerator resultAnalyzer].
  eexists. split; [reflexivity|]. repeat split.
  - rewrite aggregate_outcomes_cons. now destruct (repaired _).
  - rewrite completion_outcomes_cons. now destruct (repaired _).
Qed.

Lemma analyzeResults_frame (originalQuery : string) (results : list Document) (s : State) :
  let run := analyzeResults originalQuery results s in
  exists events,
    trace (snd run) = (trace s ++ events)%list
    /\ queryGenerator (snd run) = queryGenerator s
    /\ resultAnalyzer (snd run) = resultAnalyzer s
    /\ aggregate_outcomes events = []
    /\ length (completion_outcomes events)
       = (if isInitialized (resultAnalyzer s) then 1 else 0)%nat.
Proof.
  unfold analyzeResults, bind, try_catch, get_resultAnalyzer, create.
  destruct (isInitialized (resultAnalyzer s)); cbn.
  2:{ exists []. now rewrite app_nil_r. }
  destruct (chat_completions_create _ (world s)) as [[unavailable|response] w]; cbn.
  - eexists. rewrite <- !app_assoc. now repeat split.
  - destruct response as [|[text|] others]; cbn;
      eexists; rewrite <- !app_assoc; now repeat split.
Qed.

(** [generateQuery], [fixQuery] and [analyzeResults] never call the store,
    and each calls the oracle once: [fixQuery] always, the two others when
    their service is initialized, and not at all before. *)
Theorem oracle_called_once_store_never
    (question errorMessage : string) (failedQuery : value) (results : list Document)
    (s : State) :
  (exists events,
      trace (snd (generateQuery question s)) = (trace s ++ events)%list
      /\ attempts events = 0%nat
      /\ length (completion_outcomes events)
         = (if isInitialized (queryGenerator s) then 1 else 0)%nat)
  /\ (exists events,
        trace (snd (fixQuery question errorMessage failedQuery s)) = (trace s ++ events)%list
        /\ attempts events = 0%nat
        /\ length (completion_outcomes events) = 1%nat)
  /\ (exists events,
        trace (snd (analyzeResults question results s)) = (trace s ++ events)%list
        /\ attempts events = 0%nat
        /\ length (completion_outcomes events)
           = (if isInitialized (resultAnalyzer s) then 1 else 0)%nat).
Proof.
  unfold attempts. split; [|split].
  - destruct (generateQuery_frame question s) as (events & grown & _ & _ & none & once).
    exists events. now rewrite none.
  - destruct (fixQuery_frame question errorMessage failedQuery s)
      as (events & grown & _ & _ & none & once).
    exists events. now rewrite none.
  - destruct (analyzeResults_frame question results s)
      as (events & grown & _ & _ & none & once).
    exists events. now rewrite none.
Qed.

(** The fields of the two services are written by their own [initialize]
    only, and only while [isInitialized] is unset: no operation clears the
    flag or replaces a context. *)
Theorem services_written_by_initialize_only
    (question errorMessage : string) (query : value) (results : list Document)
    (maxRetries : Z) (s : State) :
  let unchanged (s' : State) :=
    queryGenerator s' = queryGenerator s /\ resultAnalyzer s' = resultAnalyzer s in
  unchanged (snd (generateQuery question s))
  /\ unchanged (snd (fixQuery question errorMessage query s))
  /\ unchanged (snd (analyzeResults question results s))
  /\ unchanged (snd (executeQueryWithRetry query question maxRetries s))
  /\ resultAnalyzer (snd (QueryGenerator_initialize s)) = resultAnalyzer s
  /\ queryGenerator (snd (ResultAnalyzer_initialize s)) = queryGenerator s
  /\ (isInitialized (queryGenerator s) = true -> snd (QueryGenerator_initialize s) = s)
  /\ (isInitialized (resultAnalyzer s) = true -> snd (ResultAnalyzer_initialize s) = s).
Proof.
  cbv zeta. repeat split.
  - now destruct (generateQuery_frame question s) as (? & _ & same & _).
  - now destruct (generateQuery_frame question s) as (? & _ & _ & same & _).
  - now destruct (fixQuery_frame question errorMessage query s) as (? & _ & same & _).
  - now destruct (fixQuery_frame question errorMessage query s) as (? & _ & _ & same & _).
  - now destruct (analyzeResults_frame question results s) as (? & _ & same & _).
  - now destruct (analyzeResults_frame question results s) as (? & _ & _ & same & _).
  - now destruct (executeQueryWithRetry_run query question maxRetries s)
      as (? & _ & same & _).
  - now destruct (executeQueryWithRetry_run query question maxRetries s)
      as (? & _ & _ & same & _).
  - unfold QueryGenerator_initialize, bind, get_queryGenerator.
    now destruct (isInitialized (queryGenerator s)).
  - unfold ResultAnalyzer_initialize, bind, get_resultAnalyzer.
    now destruct (isInitialized (resultAnalyzer s)).
  - intros done. unfold QueryGenerator_initialize, bind, get_queryGenerator.
    now rewrite done.
  - intros done. unfold ResultAnalyzer_initialize, bind, get_resultAnalyzer.
    now rewrite done.
Qed.

(** ** Large result sets *)

(** A result set of more than 200 records is never serialized in full,
    whatever its records carry: its summary is the digest. *)
Theorem prepareResultSummary_large_sets_digested (results : list Document) :
  (200 < length results)%nat ->
  isAggregatedData (Some results) = false
  /\ prepareResultSummary (Some results) = digest results.
Proof.
  intros large.
  assert (plain : isAggregatedData (Some results) = false).
  { unfold isAggregatedData. destruct results as [|firstResult others]; [reflexivity|].
    replace (length (firstResult :: others) <=? 200)%nat with false
      by (symmetry; apply Nat.leb_gt; exact large).
    apply andb_false_r. }
  split; [exact plain|].
  unfold prepareResultSummary. rewrite plain.
  destruct results as [|firstResult others]; [cbn in large; lia|].
  replace (length (firstResult :: others) <=? 10)%nat with false
    by (symmetry; apply Nat.leb_gt; lia).
  apply detailed_summary_digest.
Qed.

End Pipeline.

(* ================================================================== *)
(** * Properties of MongoService and of the handlers *)
(* ================================================================== *)

Section ServerProperties.
Context {rt : Runtime} {env : Collaborators} {host : Host}.

#[local] Notation "m ;; k" := (sbind m (fun _ => k))
  (at level 61, right associativity).

(** ** MongoService *)

#[local] Ltac thrown_with wording :=
  match goal with
  | same : inl ?thrown = inl ?message |- _ =>
      assert (message = thrown) as -> by congruence
  end;
  first [reflexivity | exact (prefix_app wording _)].

(** [connect] does nothing once connected; it throws only errors worded
    [Database connection failed: ...]; when it returns, the service is
    connected; and it never touches the module flag. *)
Theorem connect_outcomes (s : Server) :
  let run := connect s in
  (isConnected (mongoService s) = true -> run = (inr tt, s))
  /\ (forall message,
        fst run = inl message -> prefix "Database connection failed: " message = true)
  /\ (fst run = inr tt -> isConnected (mongoService (snd run)) = true)
  /\ isContextInitialized (snd run) = isContextInitialized s
  /\ queryGenerator (services (snd run)) = queryGenerator (services s)
  /\ resultAnalyzer (services (snd run)) = resultAnalyzer (services s).
Proof.
  cbv zeta.
  unfold connect, stry, sbind, get_mongoService, set_mongoService, testConnection, stry,
    sbind, driver_call, lift, console_log, console_error, emit, sret, sthrow, with_world.
  destruct (isConnected (mongoService s)) eqn:connected; cbn.
  { repeat split; intros; try discriminate; try reflexivity; exact connected. }
  destruct (MongoClient_new (world (services s))) as [error|built]; cbn;
    [|destruct (client_connect (world (services s))) as [[error|done] w]; cbn;
      [|destruct (collection_countDocuments w) as [[error|count] w']; cbn]];
    repeat split; intros; try discriminate; try reflexivity;
    thrown_with "Database connection failed: ".
Qed.

(** When the client connects but the test of the connection fails,
    [connect] throws, yet [isConnected] stays set: the next [connect]
    returns at once, without connecting and without testing. *)
Theorem connect_keeps_isConnected_after_failed_test (s : Server) (error : string) :
  isConnected (mongoService s) = false ->
  MongoClient_new (world (services s)) = inr tt ->
  fst (client_connect (world (services s))) = inr tt ->
  fst (collection_countDocuments (snd (client_connect (world (services s))))) = inl error ->
  let run := connect s in
  fst run = inl ("Database connection failed: " ++ ("Database test failed: " ++ error))
  /\ isConnected (mongoService (snd run)) = true
  /\ connect (snd run) = (inr tt, snd run).
Proof.
  intros fresh built connected tested. cbv zeta.
  unfold connect, stry, sbind, get_mongoService, set_mongoService, testConnection, stry,
    sbind, driver_call, lift, console_log, console_error, emit, sret, sthrow, with_world.
  rewrite fresh, built. cbn.
  destruct (client_connect (world (services s))) as [[failure|done] w]; cbn in *;
    [discriminate connected|].
  destruct (collection_countDocuments w) as [[failure|count] w']; cbn in *;
    [|discriminate tested].
  now inversion tested; subst.
Qed.

(** [executeRawQuery] never reaches the store unless the service is
    connected; connected, it makes exactly one attempt, with no repair, and
    returns its result set or wraps its failure; every error it throws is
    worded [Raw query execution failed: ...]. *)
Theorem executeRawQuery_guarded (pipeline : value) (s : Server) :
  let run := executeRawQuery pipeline s in
  (isConnected (mongoService s) = false ->
   run = (inl "Raw query execution failed: Database not connected", s))
  /\ (isConnected (mongoService s) = true ->
      let outcome := fst (collection_aggregate pipeline (world (services s))) in
      trace (services (snd run))
      = (trace (services s) ++ [Aggregate pipeline outcome])%list
      /\ fst run = match outcome with
                   | inl error => inl ("Raw query execution failed: " ++ error)
                   | inr results => inr results
                   end)
  /\ (forall message,
        fst run = inl message -> prefix "Raw query execution failed: " message = true).
Proof.
  cbv zeta.
  unfold executeRawQuery, stry, sbind, get_mongoService, lift, aggregate_toArray, sthrow.
  destruct (isConnected (mongoService s)) eqn:connected; cbn;
    [destruct (collection_aggregate pipeline (world (services s))) as [[error|results] w];
     cbn|];
    repeat split; intros; try discriminate; try reflexivity;
    thrown_with "Raw query execution failed: ".
Qed.

(** [testConnection], [getSampleData] and [getCollectionStats] make one
    driver call each; they return what it answers (the count; the
    documents; four fields read off the statistics) or throw its message
    behind their own wording. *)
Theorem MongoService_reads_wrap_driver_errors (limit : Z) (s : Server) :
  let w := world (services s) in
  fst (testConnection s)
  = match fst (collection_countDocuments w) with
    | inl error => inl ("Database test failed: " ++ error)
    | inr count => inr count
    end
  /\ driver (snd (testConnection s))
     = (driver s ++ [CountDocuments (fst (collection_countDocuments w))])%list
  /\ fst (getSampleData limit s)
     = match fst (collection_find_limit limit w) with
       | inl error => inl ("Failed to get sample data: " ++ error)
       | inr documents => inr documents
       end
  /\ driver (snd (getSampleData limit s))
     = (driver s ++ [Find limit (fst (collection_find_limit limit w))])%list
  /\ fst (getCollectionStats s)
     = match fst (db_runCommand_collStats w) with
       | inl error => inl ("Failed to get collection stats: " ++ error)
       | inr stats => inr [("documentCount", field stats "count");
                           ("avgDocumentSize", field stats "avgObjSize");
                           ("totalSize", field stats "size");
                           ("storageSize", field stats "storageSize")]
       end
  /\ driver (snd (getCollectionStats s))
     = (driver s ++ [CollStats (fst (db_runCommand_collStats w))])%list.
Proof.
  cbv zeta.
  unfold testConnection, getSampleData, getCollectionStats, stry, sbind, driver_call,
    lift, console_log, emit, sret, sthrow, with_world.
  destruct (collection_countDocuments (world (services s))) as [[error|count] w1];
    destruct (collection_find_limit limit (world (services s))) as [[error'|documents] w2];
    destruct (db_runCommand_collStats (world (services s))) as [[error''|stats] w3];
    cbn; repeat split.
Qed.

(** [disconnect] never throws.  Without a client it does nothing; with
    one, [isConnected] is cleared exactly when the client closed. *)
Theorem disconnect_never_throws (s : Server) :
  let run := disconnect s in
  fst run = inr tt
  /\ (client (mongoService s) = false -> snd run = s)
  /\ (client (mongoService s) = true ->
      match fst (client_close (world (services s))) with
      | inr _ => isConnected (mongoService (snd run)) = false
      | inl _ => mongoService (snd run) = mongoService s
      end)
  /\ client (mongoService (snd run)) = client (mongoService s).
Proof.
  cbv zeta.
  unfold disconnect, stry, sbind, get_mongoService, set_mongoService, driver_call, lift,
    console_log, console_error, emit, sret, with_world.
  destruct (client (mongoService s)) eqn:has_client; cbn.
  - destruct (client_close (world (services s))) as [[error|closed] w]; cbn;
      repeat split; try discriminate; now rewrite ?has_client.
  - repeat split; try discriminate. now rewrite has_client.
Qed.

(** ** The handlers *)

#[local] Ltac tidy :=
  cbn [services mongoService isContextInitialized driver world trace
       queryGenerator resultAnalyzer fst snd] in *.

#[local] Ltac count_calls :=
  unfold attempts in *;
  repeat rewrite ?aggregate_outcomes_app, ?completion_outcomes_app,
    ?aggregate_outcomes_cons, ?completion_outcomes_cons;
  change (aggregate_outcomes []) with (@nil (string + list Document));
  change (completion_outcomes []) with (@nil (string + ChatResponse));
  cbn [app length].

Lemma prefix_comparable (p q m : string) :
  prefix p m = true -> prefix q m = true -> prefix p q = true \/ prefix q p = true.
Proof.
  revert q m. induction p as [|a p IH]; intros q m; [left; now destruct q|].
  destruct q as [|b q]; [right; now destruct p|].
  destruct m as [|c m]; cbn; [discriminate|].
  destruct (ascii_dec a c) as [->|]; [|discriminate].
  destruct (ascii_dec b c) as [->|]; [|discriminate].
  destruct (ascii_dec c c) as [_|different]; [apply IH | now destruct different].
Qed.

Lemma service_error_not_empty (message : string) :
  service_error message = true -> String.eqb message "" = false.
Proof. destruct message; [discriminate | reflexivity]. Qed.

Lemma generateQuery_errors (userQuery message : string) (s : State) :
  fst (generateQuery userQuery s) = inl message ->
  message = "Query Generator not initialized"
  \/ prefix "Failed to generate MongoDB query: " message = true.
Proof.
  destruct (isInitialized (queryGenerator s)) eqn:ready.
  - rewrite (generateQuery_result userQuery s ready). intros thrown. right.
    destruct (fst (chat_completions_create _ _)) as [unavailable|[|[text|] others]];
      [| | destruct (JSON_parse (String_trim text)) as [syntaxError|parsed];
           [|destruct (Array_isArray parsed); [discriminate thrown|]] |];
      match type of thrown with
      | inl ?wrapped = inl _ => assert (message = wrapped) as -> by congruence
      end; apply prefix_app.
  - rewrite (generateQuery_not_initialized userQuery s ready). intros thrown. left.
    cbn in thrown. congruence.
Qed.

Lemma analyzeResults_errors (originalQuery message : string) (results : list Document)
    (s : State) :
  fst (analyzeResults originalQuery results s) = inl message ->
  message = "Result Analyzer not initialized"
  \/ prefix "Failed to analyze results: " message = true.
Proof.
  destruct (isInitialized (resultAnalyzer s)) eqn:ready.
  - rewrite (analyzeResults_result originalQuery results s ready). intros thrown. right.
    destruct (fst (chat_completions_create _ _)) as [unavailable|[|[text|] others]];
      try discriminate thrown;
      match type of thrown with
      | inl ?wrapped = inl _ => assert (message = wrapped) as -> by congruence
      end; apply prefix_app.
  - rewrite (analyzeResults_not_initialized originalQuery results s ready).
    intros thrown. left. cbn in thrown. congruence.
Qed.

(** The query handler of the server on a string that is not blank: what
    it appends to the trace, what it leaves alone, and how it answers. *)
Lemma server_post_query_run (query : string) (s : Server) :
  blank_query (VStr query) = false ->
  let run := server_post_query (VStr query) s in
  exists events,
    trace (services (snd run)) = (trace (services s) ++ events)%list
    /\ (mongoService (snd run) = mongoService s
        /\ isContextInitialized (snd run) = isContextInitialized s
        /\ driver (snd run) = driver s
        /\ queryGenerator (services (snd run)) = queryGenerator (services s)
        /\ resultAnalyzer (services (snd run)) = resultAnalyzer (services s))
    /\ (attempts events <= 2)%nat
    /\ (length (completion_outcomes events) <= 3)%nat
    /\ ((exists results analysis,
           fst run = inr (respond 200
                            (Answer query (length results) analysis (rawResults_of results)
                                    (Date_toISOString (world (services (snd run))))))
           /\ last (aggregate_outcomes events) (inl "") = inr results)
        \/ (exists message,
              fst run = inr (respond 500 (Refusal message))
              /\ service_error message = true
              /\ (message = "Query Generator not initialized"
                  \/ prefix "Failed to generate MongoDB query: " message = true ->
                  attempts events = 0%nat
                  /\ (length (completion_outcomes events) <= 1)%nat))).
Proof.
  intros asked. cbv zeta.
  unfold blank_query in asked. apply orb_false_elim in asked as (truthy & written).
  unfold server_post_query, stry, processQuery. rewrite truthy, written.
  cbv [sbind lift sret sthrow query_failed console_log console_error emit respond].
  cbn [services mongoService isContextInitialized driver world trace
       queryGenerator resultAnalyzer].
  (* Step 1: the translation *)
  match goal with
  | |- context [generateQuery query ?st] =>
      pose proof (generateQuery_frame query st) as translated;
      pose proof (fun message => generateQuery_errors query message st)
        as translation_errors;
      destruct (generateQuery query st) as [[error|mongoQuery] st1]
  end; cbv zeta in translated; tidy;
    destruct translated as (told & grown1 & qg1 & ra1 & no_attempt1 & asked1).
  { eexists. split; [rewrite grown1, <- !app_assoc; reflexivity|].
    split; [now repeat split|].
    assert (quiet : attempts (told ++ [Console_error ("❌ Query processing failed: " ++ error)])
                    = 0%nat) by (count_calls; now rewrite no_attempt1).
    assert (once : (length (completion_outcomes
                              (told ++ [Console_error ("❌ Query processing failed: "
                                                       ++ error)])) <= 1)%nat).
    { count_calls. rewrite app_nil_r, asked1.
      destruct (isInitialized (queryGenerator (services s))); lia. }
    cbn [app]. unfold attempts in *. rewrite !aggregate_outcomes_cons, !completion_outcomes_cons.
    split; [lia|]. split; [lia|]. right.
    assert (kind : service_error error = true).
    { unfold service_error, NotInitializedError, TranslationError.
      destruct (translation_errors error eq_refl) as [->|wrapped]; [reflexivity|].
      rewrite wrapped. now rewrite !orb_true_r. }
    exists error. rewrite (service_error_not_empty error kind). now repeat split. }
  (* Step 2: the execution *)
  match goal with
  | |- context [executeQueryWithRetry mongoQuery query 2 ?st] =>
      destruct (executeQueryWithRetry_run mongoQuery query 2 st)
        as (ran & grown2 & qg2 & ra2 & shape);
      pose proof (Run_attempts_bound _ _ _ _ _ _ _ shape) as few_attempts;
      pose proof (Run_repairs_bound _ _ _ _ _ _ _ shape) as few_repairs;
      pose proof (Run_ends _ _ _ _ _ _ _ shape ltac:(lia)) as ending;
      destruct (executeQueryWithRetry mongoQuery query 2 st) as [[error|[results|]] st2]
  end; tidy; unfold attempts in few_attempts, few_repairs;
    rewrite ?aggregate_outcomes_calls, ?completion_outcomes_calls in *;
    [| |destruct ending].
  { eexists. split; [rewrite grown2, grown1, <- !app_assoc; reflexivity|].
    split; [repeat split; congruence|].
    cbn [app]. count_calls. rewrite no_attempt1. cbn [app length].
    rewrite !length_app, asked1. cbn [length].
    split; [lia|].
    split; [destruct (isInitialized (queryGenerator (services s))); lia|]. right.
    assert (kind : service_error error = true).
    { unfold service_error.
      destruct ending as [(kind & _)|(kind & _)]; rewrite kind; now rewrite ?orb_true_r. }
    exists error. rewrite (service_error_not_empty error kind).
    split; [reflexivity|]. split; [exact kind|].
    intros [->|translation].
    - now destruct ending as [(kind' & _)|(kind' & _)].
    - destruct ending as [(kind' & _)|(kind' & _)];
        destruct (prefix_comparable _ _ _ translation kind'); discriminate. }
  (* Step 3: the analysis *)
  match goal with
  | |- context [analyzeResults query results ?st] =>
      pose proof (analyzeResults_frame query results st) as narrated;
      pose proof (fun message => analyzeResults_errors query message results st)
        as analysis_errors;
      destruct (analyzeResults query results st) as [[error|analysis] st3]
  end; cbv zeta in narrated; tidy;
    destruct narrated as (said & grown3 & qg3 & ra3 & no_attempt3 & asked3).
  - eexists. split; [rewrite grown3, grown2, grown1, <- !app_assoc; reflexivity|].
    split; [repeat split; congruence|].
    cbn [app]. count_calls. rewrite no_attempt1, no_attempt3. cbn [app length].
    rewrite !length_app, asked1, asked3, app_nil_r. cbn [length].
    split; [lia|].
    split; [destruct (isInitialized (queryGenerator (services s)));
            destruct (isInitialized (resultAnalyzer st2)); lia|].
    right.
    assert (kind : service_error error = true).
    { unfold service_error, NotInitializedError, AnalysisError.
      destruct (analysis_errors error eq_refl) as [->|wrapped]; [reflexivity|].
      rewrite wrapped. now rewrite !orb_true_r. }
    exists error. rewrite (service_error_not_empty error kind).
    split; [reflexivity|]. split; [exact kind|].
    intros [->|translation].
    + destruct (analysis_errors _ eq_refl) as [other|wrapped]; discriminate.
    + destruct (analysis_errors error eq_refl) as [->|wrapped]; [discriminate translation|].
      destruct (prefix_comparable _ _ _ translation wrapped); discriminate.
  - eexists. split; [rewrite grown3, grown2, grown1, <- !app_assoc; reflexivity|].
    split; [repeat split; congruence|].
    cbn [app]. count_calls. rewrite no_attempt1, no_attempt3. cbn [app length].
    rewrite !length_app, asked1, asked3, !app_nil_r. cbn [length].
    split; [lia|].
    split; [destruct (isInitialized (queryGenerator (services s)));
            destruct (isInitialized (resultAnalyzer st2)); lia|].
    left. exists results, analysis. split; [reflexivity | exact ending].
Qed.

(** The query handler of the server on a blank query. *)
Lemma server_post_query_blank (query : value) (s : Server) :
  blank_query query = true ->
  server_post_query query s = (inr (respond 400 (Refusal "Query is required")), s).
Proof.
  unfold blank_query, server_post_query, stry, processQuery. intros blank.
  destruct (negb (ToBoolean query)); [reflexivity|].
  destruct query; try discriminate blank. cbn [orb] in blank. now rewrite blank.
Qed.

(** The query handler of the server on a truthy value that is no string:
    the call of [query.trim] throws, and the handler answers 500. *)
Lemma server_post_query_not_a_string (query : value) (s : Server) :
  blank_query query = false ->
  is_string query = false ->
  let run := server_post_query query s in
  let thrown := TypeError_not_a_function "query.trim" in
  fst run = inr (respond 500
                   (Refusal (if negb (String.eqb thrown "") then thrown
                             else "An error occurred while processing your query")))
  /\ trace (services (snd run))
     = (trace (services s) ++ [Console_error ("❌ Query processing failed: " ++ thrown)])%list
  /\ mongoService (snd run) = mongoService s
  /\ isContextInitialized (snd run) = isContextInitialized s
  /\ driver (snd run) = driver s
  /\ queryGenerator (services (snd run)) = queryGenerator (services s)
  /\ resultAnalyzer (services (snd run)) = resultAnalyzer (services s).
Proof.
  intros asked other. cbv zeta.
  unfold blank_query in asked. apply orb_false_elim in asked as (truthy & _).
  unfold server_post_query, stry, processQuery. rewrite truthy.
  destruct query; try discriminate other;
    cbv [sbind lift sret sthrow query_failed console_error emit respond]; tidy;
    now repeat split.
Qed.

(** The query handler of the server answers 400 exactly to a blank query
    (a missing or falsy value, or a string of white space), and then does
    nothing else: no console line, no call, nothing written.  A truthy
    value that is no string gets a 500, after no call either. *)
Theorem server_post_query_requires_a_query (query : value) (s : Server) :
  let run := server_post_query query s in
  (blank_query query = true ->
   run = (inr (respond 400 (Refusal "Query is required")), s))
  /\ (blank_query query = false ->
      exists response, fst run = inr response /\ status response <> 400%Z)
  /\ (blank_query query = false ->
      is_string query = false ->
      exists text,
        fst run = inr (respond 500 (Refusal text))
        /\ exists events,
             trace (services (snd run)) = (trace (services s) ++ events)%list
             /\ attempts events = 0%nat
             /\ completion_outcomes events = []).
Proof.
  cbv zeta. split; [apply server_post_query_blank|]. split.
  - intros asked. destruct (is_string query) eqn:written.
    + destruct query as [| | | |text| |]; try discriminate written.
      destruct (server_post_query_run text s asked)
        as (events & _ & _ & _ & _ & [(results & analysis & answered & _)
                                     |(message & answered & _)]);
        rewrite answered; eexists; (split; [reflexivity|]); discriminate.
    + destruct (server_post_query_not_a_string query s asked written) as (answered & _).
      rewrite answered. eexists. split; [reflexivity|]. discriminate.
  - intros asked other.
    destruct (server_post_query_not_a_string query s asked other)
      as (answered & grown & _).
    eexists. split; [exact answered|].
    eexists. split; [exact grown|]. now split.
Qed.

(** The query handler of the server never throws: it answers 200 with the
    analysis, 400 to a blank query, or 500; the text of a 500 is the
    message of a service error (never the fallback text) whenever the
    query is a string.  It writes nothing but the console and the world. *)
Theorem server_post_query_always_answers (query : value) (s : Server) :
  let run := server_post_query query s in
  exists response,
    fst run = inr response
    /\ match body response with
       | Answer _ _ _ _ _ => status response = 200%Z /\ is_string query = true
       | Refusal error =>
           (status response = 400%Z /\ error = "Query is required")
           \/ (status response = 500%Z
               /\ (is_string query = true -> service_error error = true))
       | Healthy _ _ => False
       end
    /\ mongoService (snd run) = mongoService s
    /\ isContextInitialized (snd run) = isContextInitialized s
    /\ driver (snd run) = driver s
    /\ queryGenerator (services (snd run)) = queryGenerator (services s)
    /\ resultAnalyzer (services (snd run)) = resultAnalyzer (services s).
Proof.
  cbv zeta. destruct (blank_query query) eqn:blank.
  - rewrite (server_post_query_blank query s blank).
    exists (respond 400 (Refusal "Query is required")).
    cbn. repeat split. now left.
  - destruct (is_string query) eqn:written.
    + destruct query as [| | | |text| |]; try discriminate written.
      destruct (server_post_query_run text s blank)
        as (events & _ & (same_mongo & same_flag & same_driver & same_qg & same_ra) & _ & _
            & [(results & analysis & answered & _)|(message & answered & kind & _)]);
        rewrite answered; eexists; (split; [reflexivity|]); cbn [body status respond];
        repeat split; try assumption. now right.
    + destruct (server_post_query_not_a_string query s blank written)
        as (answered & _ & same).
      rewrite answered. eexists. split; [reflexivity|]. cbn [body status respond].
      split; [|exact same]. right. split; [reflexivity|]. discriminate.
Qed.

(** A request costs at most two execution attempts against the store and
    three calls to the oracle (translate, repair once, analyze), and no
    other driver call. *)
Theorem server_post_query_call_budget (query : value) (s : Server) :
  let run := server_post_query query s in
  exists events,
    trace (services (snd run)) = (trace (services s) ++ events)%list
    /\ (attempts events <= 2)%nat
    /\ (length (completion_outcomes events) <= 3)%nat
    /\ driver (snd run) = driver s.
Proof.
  cbv zeta. destruct (blank_query query) eqn:blank.
  - rewrite (server_post_query_blank query s blank).
    exists []. cbn. rewrite app_nil_r. repeat split; lia.
  - destruct (is_string query) eqn:written.
    + destruct query as [| | | |text| |]; try discriminate written.
      destruct (server_post_query_run text s blank)
        as (events & grown & (_ & _ & same_driver & _) & few_attempts & few_calls & _).
      now exists events.
    + destruct (server_post_query_not_a_string query s blank written)
        as (_ & grown & _ & _ & same_driver & _).
      eexists. split; [exact grown|]. cbn. repeat split; try lia. exact same_driver.
Qed.

(** In a 200 answer, [resultCount] is the size of the result set of the
    last attempt, which succeeded, and [rawResults] is that result set
    when it has at most 200 records, its first 50 records otherwise: never
    more than 200 records. *)
Theorem server_post_query_truncates_rawResults
    (query : value) (s : Server) (code : Z) (asked : string) (resultCount : nat)
    (analysis : string) (rawResults : list Document) (executionTime : string) :
  let run := server_post_query query s in
  fst run = inr (respond code (Answer asked resultCount analysis rawResults executionTime)) ->
  code = 200%Z
  /\ query = VStr asked
  /\ (length rawResults <= 200)%nat
  /\ exists events results,
       trace (services (snd run)) = (trace (services s) ++ events)%list
       /\ last (aggregate_outcomes events) (inl "") = inr results
       /\ resultCount = length results
       /\ ((resultCount <= 200)%nat -> rawResults = results)
       /\ ((200 < resultCount)%nat -> rawResults = firstn 50 results).
Proof.
  cbv zeta. intros answered.
  destruct (blank_query query) eqn:blank.
  { rewrite (server_post_query_blank query s blank) in answered. discriminate answered. }
  destruct (is_string query) eqn:written.
  2: { destruct (server_post_query_not_a_string query s blank written) as (answered' & _).
       rewrite answered' in answered. discriminate answered. }
  destruct query as [| | | |text| |]; try discriminate written.
  destruct (server_post_query_run text s blank)
    as (events & grown & _ & _ & _
        & [(results & analysis' & answered' & succeeded)|(message & answered' & _)]);
    rewrite answered' in answered; [|discriminate answered].
  inversion answered; subst. unfold rawResults_of.
  split; [reflexivity|]. split; [reflexivity|]. split.
  - destruct (length results <=? 200)%nat eqn:small.
    + now apply Nat.leb_le.
    + unfold slice0. rewrite length_firstn. lia.
  - exists events, results. repeat split; try assumption.
    + intros small. apply Nat.leb_le in small. now rewrite small.
    + intros large. apply Nat.leb_gt in large. now rewrite large.
Qed.

(** A 500 answer that reports a failed translation, or a translator that
    is not initialized, was given without any execution attempt and after
    at most one call to the oracle: a failed translation is not repaired. *)
Theorem server_post_query_does_not_repair_translation
    (query : value) (s : Server) (code : Z) (message : string) :
  let run := server_post_query query s in
  fst run = inr (respond code (Refusal message)) ->
  message = "Query Generator not initialized"
  \/ prefix "Failed to generate MongoDB query: " message = true ->
  code = 500%Z
  /\ exists events,
       trace (services (snd run)) = (trace (services s) ++ events)%list
       /\ attempts events = 0%nat
       /\ (length (completion_outcomes events) <= 1)%nat.
Proof.
  cbv zeta. intros answered translation.
  destruct (blank_query query) eqn:blank.
  { rewrite (server_post_query_blank _ s blank) in answered.
    assert (message = "Query is required") as ->
      by (unfold respond in answered; cbn in answered; inversion answered; reflexivity).
    destruct translation as [other|wrapped]; discriminate. }
  destruct (is_string query) eqn:written.
  2: { destruct (server_post_query_not_a_string query s blank written)
         as (answered' & grown & _).
       rewrite answered' in answered. unfold respond in answered.
       split; [congruence|].
       eexists. split; [exact grown|]. cbn. split; [reflexivity | lia]. }
  destruct query as [| | | |text| |]; try discriminate written.
  destruct (server_post_query_run text s blank)
    as (events & grown & _ & _ & _
        & [(results & analysis' & answered' & _)|(message' & answered' & _ & quiet)]);
    rewrite answered' in answered; [discriminate answered|].
  unfold respond in answered. inversion answered; subst.
  split; [reflexivity|].
  exists events. split; [exact grown|]. now apply quiet.
Qed.

(** ** Initializing at the first request *)

Lemma initializeContexts_run (s : Server) :
  isContextInitialized s = false ->
  let run := initializeContexts s in
  (exists events,
      trace (services (snd run)) = (trace (services s) ++ events)%list
      /\ aggregate_outcomes events = []
      /\ completion_outcomes events = [])
  /\ isInitialized (queryGenerator (services (snd run))) = true
  /\ isInitialized (resultAnalyzer (services (snd run))) = true
  /\ match fst run with
     | inr _ =>
         isContextInitialized (snd run) = true
         /\ isConnected (mongoService (snd run)) = true
     | inl message =>
         prefix "Database connection failed: " message = true
         /\ isContextInitialized (snd run) = false
     end.
Proof.
  intros first. cbv zeta.
  unfold initializeContexts. rewrite first. cbn [negb].
  unfold connect, testConnection, set_isContextInitialized, stry, sbind, get_mongoService,
    set_mongoService, driver_call, lift, QueryGenerator_initialize,
    ResultAnalyzer_initialize, bind, ret, get_queryGenerator, get_resultAnalyzer,
    set_queryGenerator, set_resultAnalyzer, console_log, console_error, emit, sret,
    sthrow, with_world.
  tidy.
  destruct (isInitialized (queryGenerator (services s))) eqn:translator; tidy;
    (destruct (isInitialized (resultAnalyzer (services s))) eqn:narrator; tidy);
    (destruct (isConnected (mongoService s)) eqn:connected; tidy;
     [|destruct (MongoClient_new (world (services s))) as [error|built]; tidy;
       [|destruct (client_connect (world (services s))) as [[error|done] w]; tidy;
         [|destruct (collection_countDocuments w) as [[error|count] w']; tidy]]]);
    (split; [eexists; rewrite <- ?app_assoc; split; [reflexivity | split; reflexivity]|]);
    repeat split; try assumption; try reflexivity;
    exact (prefix_app "Database connection failed: " _).
Qed.

(** A first [initializeContexts] initializes both services whatever
    happens to the connection.  If the connection fails it throws an error
    worded [Database connection failed: ...] and leaves the flag unset, so
    that the next request tries again; if it succeeds the flag is set and
    the service is connected.  Once the flag is set it does nothing.  It
    never calls the oracle nor runs a query. *)
Theorem initializeContexts_sets_flag_on_success_only (s : Server) :
  let run := initializeContexts s in
  (isContextInitialized s = true -> run = (inr tt, s))
  /\ (isContextInitialized s = false ->
      isInitialized (queryGenerator (services (snd run))) = true
      /\ isInitialized (resultAnalyzer (services (snd run))) = true
      /\ (exists events,
            trace (services (snd run)) = (trace (services s) ++ events)%list
            /\ attempts events = 0%nat
            /\ completion_outcomes events = [])
      /\ match fst run with
         | inr _ =>
             isContextInitialized (snd run) = true
             /\ isConnected (mongoService (snd run)) = true
             /\ initializeContexts (snd run) = (inr tt, snd run)
         | inl message =>
             prefix "Database connection failed: " message = true
             /\ isContextInitialized (snd run) = false
         end).
Proof.
  cbv zeta. split.
  - intros done. unfold initializeContexts. now rewrite done.
  - intros first.
    destruct (initializeContexts_run s first)
      as ((events & grown & none & quiet) & translator & narrator & ending).
    split; [exact translator|]. split; [exact narrator|].
    split; [exists events; unfold attempts; now rewrite none|].
    destruct (fst (initializeContexts s)) as [message|[]]; [exact ending|].
    destruct ending as (flag & connected). repeat split; try assumption.
    unfold initializeContexts at 1. now rewrite flag.
Qed.

(** ** The health endpoints *)

(** Neither health handler throws.  The server's answers 200 exactly when
    the count of documents succeeds, and then reports the flag as it is,
    set or not; the app's reports 200 only with [contextInitialized] set.
    A 500 carries the fixed text [Database connection failed], never the
    cause. *)
Theorem health_answers (s : Server) :
  fst (server_get_health s)
  = inr match fst (collection_countDocuments (world (services s))) with
        | inr _ => respond 200 (Healthy "Server and database are healthy"
                                        (isContextInitialized s))
        | inl _ => respond 500 (Refusal "Database connection failed")
        end
  /\ (fst (app_get_health s)
      = inr (respond 200 (Healthy "Server and database are healthy" true))
      \/ fst (app_get_health s)
         = inr (respond 500 (Refusal "Database connection failed"))).
Proof.
  assert (server : forall s' : Server,
             fst (server_get_health s')
             = inr match fst (collection_countDocuments (world (services s'))) with
                   | inr _ => respond 200 (Healthy "Server and database are healthy"
                                                   (isContextInitialized s'))
                   | inl _ => respond 500 (Refusal "Database connection failed")
                   end).
  { intros s'.
    unfold server_get_health, health_report, health_failed, testConnection, stry, sbind,
      driver_call, lift, console_log, emit, sret, sthrow, with_world.
    now destruct (collection_countDocuments (world (services s'))) as [[error|count] w]. }
  split; [apply server|].
  assert (after : forall s1 : Server,
             isContextInitialized s1 = true ->
             fst (stry (testConnection ;; health_report) health_failed s1)
             = inr (respond 200 (Healthy "Server and database are healthy" true))
             \/ fst (stry (testConnection ;; health_report) health_failed s1)
                = inr (respond 500 (Refusal "Database connection failed"))).
  { intros s1 set. change (stry (testConnection ;; health_report) health_failed)
      with server_get_health.
    rewrite server, set.
    destruct (fst (collection_countDocuments (world (services s1)))); [now right | now left]. }
  destruct (isContextInitialized s) eqn:flag.
  - replace (app_get_health s) with (stry (testConnection ;; health_report) health_failed s);
      [now apply after|].
    unfold app_get_health, stry, sbind, initializeContexts. now rewrite flag.
  - destruct (initializeContexts_run s flag) as (_ & _ & _ & ending).
    assert (step : app_get_health s
                   = match initializeContexts s with
                     | (inl error, s1) => health_failed error s1
                     | (inr _, s1) =>
                         stry (testConnection ;; health_report) health_failed s1
                     end).
    { unfold app_get_health, stry, sbind.
      now destruct (initializeContexts s) as [[message|[]] s1]. }
    rewrite step.
    destruct (initializeContexts s) as [[message|[]] s1]; cbn [fst snd] in ending.
    + now right.
    + destruct ending as (set & _). now apply after.
Qed.

(** ** The handler that initializes at the first request *)

(** Once its flag is set the app's query handler is the server's.  While
    the database cannot be connected it answers 500 with the connection
    error, to blank queries too, without any call to the oracle or to
    the store, and leaves the flag unset. *)
Theorem app_post_query_initializes_first (query : value) (s : Server) :
  let run := app_post_query query s in
  (isContextInitialized s = true -> run = server_post_query query s)
  /\ (isContextInitialized s = false ->
      forall message,
        fst (initializeContexts s) = inl message ->
        fst run = inr (respond 500 (Refusal message))
        /\ prefix "Database connection failed: " message = true
        /\ isContextInitialized (snd run) = false
        /\ exists events,
             trace (services (snd run)) = (trace (services s) ++ events)%list
             /\ attempts events = 0%nat
             /\ completion_outcomes events = []).
Proof.
  cbv zeta. split.
  - intros done. unfold app_post_query, server_post_query, stry, sbind, initializeContexts.
    now rewrite done.
  - intros first message failed.
    destruct (initializeContexts_run s first)
      as ((events & grown & none & quiet) & _ & _ & ending).
    unfold app_post_query, stry, sbind.
    destruct (initializeContexts s) as [[thrown|[]] s1]; cbn [fst snd] in *;
      [|discriminate failed].
    assert (thrown = message) as -> by congruence.
    destruct ending as (wording & unset).
    assert (present : String.eqb message "" = false)
      by (destruct message; [discriminate wording | reflexivity]).
    unfold query_failed, sbind, lift, console_error, emit, sret, respond.
    cbn. rewrite present. cbn.
    repeat split; try assumption.
    exists (events ++ [Console_error ("❌ Query processing failed: " ++ message)])%list.
    split; [now rewrite grown, <- app_assoc|].
    unfold attempts. rewrite aggregate_outcomes_app, completion_outcomes_app, none, quiet.
    now split.
Qed.

End ServerProperties.

(* ================================================================== *)
(** * Properties of the page script *)
(* ================================================================== *)

Section PageProperties.
Context {rt : Runtime}.

Lemma no_angle_bracket_append (a b : string) :
  no_angle_bracket (a ++ b) = no_angle_bracket a && no_angle_bracket b.
Proof.
  induction a as [|c a IH]; cbn; [reflexivity|]. rewrite IH. now rewrite andb_assoc.
Qed.

Lemma escapeHtml_no_angle_bracket (text : string) :
  no_angle_bracket (escapeHtml text) = true.
Proof.
  remember (String.length text) as size eqn:measured.
  assert (bounded : (String.length text <= size)%nat) by lia. clear measured.
  revert text bounded. induction size as [|size IH]; intros text bounded.
  - destruct text; [reflexivity | cbn in bounded; lia].
  - destruct text as [|c rest]; [reflexivity|]. cbn in bounded.
    cbn [escapeHtml].
    destruct (Ascii.eqb c "&") eqn:ampersand;
      [rewrite no_angle_bracket_append, IH by lia; reflexivity|].
    destruct (Ascii.eqb c "<") eqn:less;
      [rewrite no_angle_bracket_append, IH by lia; reflexivity|].
    destruct (Ascii.eqb c ">") eqn:greater;
      [rewrite no_angle_bracket_append, IH by lia; reflexivity|].
    destruct rest as [|d rest']; [cbn; now rewrite less, greater|].
    destruct (Ascii.eqb c (ascii_of_nat 194) && Ascii.eqb d (ascii_of_nat 160)).
    + rewrite no_angle_bracket_append, IH by (cbn in bounded; lia). reflexivity.
    + cbn [no_angle_bracket]. rewrite less, greater. cbn [negb andb].
      apply IH. cbn in bounded |- *. lia.
Qed.

(** Whatever the analysis text holds, [formatAnalysis] returns one piece
    per line, each of them [<br>], a paragraph, or a paragraph in bold,
    around a text without any [<] or [>]: the only tags of the result are
    the ones the script writes. *)
Theorem formatAnalysis_writes_its_own_tags_only (analysis : string) :
  exists pieces,
    formatAnalysis analysis = concat_strings pieces
    /\ length pieces = length (split (ascii_of_nat 10) analysis)
    /\ Forall (fun piece =>
                 piece = "<br>"
                 \/ exists text,
                      no_angle_bracket text = true
                      /\ (piece = "<p>" ++ text ++ "</p>"
                          \/ piece = "<p><strong>" ++ text ++ "</strong></p>"))
              pieces.
Proof.
  exists (map format_line (split (ascii_of_nat 10) analysis)).
  split; [reflexivity|]. split; [apply length_map|].
  apply Forall_map, Forall_forall. intros line _. unfold format_line.
  destruct (String.eqb (String_trim line) ""); [now left|]. right.
  exists (escapeHtml (String_trim line)). split; [apply escapeHtml_no_angle_bracket|].
  destruct ((utf16_length (String_trim line) <? 100)%nat
            && starts_with_capital (String_trim line)
            && negb (endsWith_dot (String_trim line))); [now right | now left].
Qed.

End PageProperties.

(* ================================================================== *)
(** * More properties at concrete inputs *)
(* ================================================================== *)

Section MoreConcrete.
Import Reference Scripted Examples Hosted.

(** A heading, a blank line, and a sentence with markup in it. *)
Example formatAnalysis_of_three_lines :
  formatAnalysis ("Top instructors" ++ nl ++ "  " ++ nl ++ "Use <b>4.3</b> & more.")
  = "<p><strong>Top instructors</strong></p><br><p>Use &lt;b&gt;4.3&lt;/b&gt; &amp; more.</p>".
Proof. vm_compute. reflexivity. Qed.

(** A number where the question should be. *)
Example server_post_query_of_a_number :
  fst (server_post_query (host := host (inr tt) (inr 201%nat)) (VNum 5) (listening plenty))
  = inr (respond 500 (Refusal "query.trim is not a function")).
Proof. vm_compute. reflexivity. Qed.

Lemma executeQueryWithRetry_returns_or_throws_witness :
  let run := executeQueryWithRetry pipeline question 2 (initialized store_fails_twice) in
  (1 <= 2)%Z
  /\ fst run <> inr None
  /\ fst run = inl "Database query failed after 2 attempts: pipeline is empty"
  /\ QueryExecutionError "Database query failed after 2 attempts: pipeline is empty" = true.
Proof.
  cbv zeta. split; [lia|].
  destruct (executeQueryWithRetry_returns_or_throws
              pipeline question 2 (initialized store_fails_twice) ltac:(lia))
    as (events & _ & defined & _ & _).
  split; [exact defined|]. split; vm_compute; reflexivity.
Defined.

Lemma prepareResultSummary_large_sets_digested_witness :
  (200 < length many_sessions)%nat
  /\ isAggregatedData (Some many_sessions) = false
  /\ prepareResultSummary (Some many_sessions) = digest many_sessions.
Proof.
  assert (large : (200 < length many_sessions)%nat)
    by (unfold many_sessions; rewrite repeat_length; lia).
  split; [exact large|].
  exact (prepareResultSummary_large_sets_digested many_sessions large).
Defined.

Lemma connect_keeps_isConnected_after_failed_test_witness :
  let unauthorized := host (inr tt) (inl "not authorized on rating-analyzer") in
  let s := started store_fails_twice in
  isConnected (mongoService s) = false
  /\ fst (connect (host := unauthorized) s)
     = inl "Database connection failed: Database test failed: not authorized on rating-analyzer"
  /\ isConnected (mongoService (snd (connect (host := unauthorized) s))) = true
  /\ connect (host := unauthorized) (snd (connect (host := unauthorized) s))
     = (inr tt, snd (connect (host := unauthorized) s)).
Proof.
  cbv zeta. split; [reflexivity|].
  exact (connect_keeps_isConnected_after_failed_test
           (host := host (inr tt) (inl "not authorized on rating-analyzer"))
           (started store_fails_twice) "not authorized on rating-analyzer"
           eq_refl eq_refl eq_refl eq_refl).
Defined.

Lemma server_post_query_truncates_rawResults_witness :
  let online := host (inr tt) (inr 201%nat) in
  let run := server_post_query (host := online) (VStr question) (listening plenty) in
  fst run
  = inr (respond 200 (Answer question 201 "Rishi Bollu taught 201 sessions."
                             (firstn 50 many_sessions) "2025-01-01T00:00:00.000Z"))
  /\ (length (firstn 50 many_sessions) <= 200)%nat
  /\ exists events results,
       trace (services (snd run)) = (trace (services (listening plenty)) ++ events)%list
       /\ last (aggregate_outcomes events) (inl "") = inr results
       /\ 201%nat = length results
       /\ ((201 <= 200)%nat -> firstn 50 many_sessions = results)
       /\ ((200 < 201)%nat -> firstn 50 many_sessions = firstn 50 results).
Proof.
  cbv zeta.
  assert (answered :
    fst (server_post_query (host := host (inr tt) (inr 201%nat)) (VStr question)
                           (listening plenty))
    = inr (respond 200 (Answer question 201 "Rishi Bollu taught 201 sessions."
                               (firstn 50 many_sessions) "2025-01-01T00:00:00.000Z")))
    by (vm_compute; reflexivity).
  split; [exact answered|].
  exact (proj2 (proj2 (server_post_query_truncates_rawResults
                         (host := host (inr tt) (inr 201%nat))
                         (VStr question) (listening plenty) _ _ _ _ _ _ answered))).
Defined.

Lemma server_post_query_does_not_repair_translation_witness :
  let online := host (inr tt) (inr 201%nat) in
  let run := server_post_query (host := online) (VStr question)
                               (listening (oracle_says "SELECT AVG(rating)")) in
  let message := "Failed to generate MongoDB query: Invalid MongoDB query generated: Unexpected token in JSON at position 0" in
  fst run = inr (respond 500 (Refusal message))
  /\ prefix "Failed to generate MongoDB query: " message = true
  /\ 500%Z = 500%Z
  /\ exists events,
       trace (services (snd run))
       = (trace (services (listening (oracle_says "SELECT AVG(rating)"))) ++ events)%list
       /\ attempts events = 0%nat
       /\ (length (completion_outcomes events) <= 1)%nat.
Proof.
  cbv zeta.
  assert (answered :
    fst (server_post_query (host := host (inr tt) (inr 201%nat)) (VStr question)
                           (listening (oracle_says "SELECT AVG(rating)")))
    = inr (respond 500 (Refusal "Failed to generate MongoDB query: Invalid MongoDB query generated: Unexpected token in JSON at position 0")))
    by (vm_compute; reflexivity).
  split; [exact answered|]. split; [reflexivity|].
  exact (server_post_query_does_not_repair_translation
           (host := host (inr tt) (inr 201%nat))
           (VStr question) (listening (oracle_says "SELECT AVG(rating)")) _ _
           answered (or_intror eq_refl)).
Defined.

End MoreConcrete.
